(** * gitsome: [gitsome/config.py]

    A shallow embedding of the [Config] class of gitsome (credential and
    url-history persistence) together with the properties of its methods
    [get_github_config_path], [authenticate], [request_two_factor_code],
    [load_urls] and [save_urls].

    Layout:
    - [PyStr]   : the [str] methods the module calls ([strip], [replace],
                  [split], [join], [lower], [repr]);
    - [PosixPath] : [os.path.join], [os.path.normpath], [os.path.abspath];
    - exceptions, [ConfigParser] ([RawConfigParser] restricted to the
      calls made here), the world (environment, files, terminal, the
      calls to github3) and the monad in which the methods run;
    - the class [Config] and its methods;
    - the vocabulary of the statements and sample inputs;
    - the proofs.

    The model follows Python 3 on a POSIX system: [input] reads a line,
    [os.path] is [posixpath]. *)

From Stdlib Require Import Ascii String.
From stdpp Require Import base option list strings gmap.

(** ** Python strings

    A Python [str] is modelled by a Rocq [string] whose characters are the
    code points below 256. *)
Module PyStr.

(** [str.isspace] on one character, for code points below 256:
    TAB..CR, FS..US and SPACE, NEL and NBSP. *)
Definition is_whitespace (c : ascii) : bool :=
  let n := nat_of_ascii c in
  ((9 <=? n) && (n <=? 13)) || ((28 <=? n) && (n <=? 32))
  || (n =? 133) || (n =? 160).

Fixpoint lstrip (s : string) : string :=
  match s with
  | "" => ""
  | String c s' => if is_whitespace c then lstrip s' else s
  end.

Fixpoint rstrip (s : string) : string :=
  match s with
  | "" => ""
  | String c s' =>
      match rstrip s' with
      | "" => if is_whitespace c then "" else String c ""
      | r => String c r
      end
  end.

(** [s.strip()] *)
Definition strip (s : string) : string := rstrip (lstrip s).

(** The scan of [s.replace(old, new)] for a non-empty [old]: left to
    right, each match of [old] is replaced and the scan resumes after
    it; [skip] counts the characters of the current match still to be
    passed over. *)
Fixpoint replace_from (old new : string) (skip : nat) (s : string) : string :=
  match s with
  | "" => ""
  | String c s' =>
      match skip with
      | S k => replace_from old new k s'
      | O =>
          if String.prefix old s
          then new +:+ replace_from old new (String.length old - 1) s'
          else String c (replace_from old new 0 s')
      end
  end.

Fixpoint intersperse_after (new : string) (s : string) : string :=
  match s with
  | "" => ""
  | String c s' => String c (new +:+ intersperse_after new s')
  end.

(** [s.replace(old, new)]; with an empty [old], [new] is inserted before
    every character and at the end. *)
Definition replace (s old new : string) : string :=
  match old with
  | "" => new +:+ intersperse_after new s
  | _ => replace_from old new 0 s
  end.

(** The scan of [s.split(sep)] for a non-empty [sep]: the first field and
    the list of the following ones. *)
Fixpoint split_from (sep : string) (skip : nat) (s : string)
  : string * list string :=
  match s with
  | "" => ("", [])
  | String c s' =>
      match skip with
      | S k => split_from sep k s'
      | O =>
          if String.prefix sep s
          then
            let '(f, r) := split_from sep (String.length sep - 1) s' in
            ("", f :: r)
          else
            let '(f, r) := split_from sep 0 s' in
            (String c f, r)
      end
  end.

(** [s.split(sep)] for a non-empty [sep] (Python raises [ValueError] on
    an empty one; every call in [config.py] passes a literal). *)
Definition split (s sep : string) : list string :=
  let '(f, r) := split_from sep 0 s in f :: r.

(** [sep.join(l)] *)
Definition join (sep : string) (l : list string) : string :=
  String.concat sep l.

(** *** [repr] of a [str] and [str] of a list of [str] *)

Fixpoint contains_char (c : ascii) (s : string) : bool :=
  match s with
  | "" => false
  | String d s' => if Ascii.eqb c d then true else contains_char c s'
  end.

Definition hex_digit (n : nat) : ascii :=
  match n with
  | 0 => "0" | 1 => "1" | 2 => "2" | 3 => "3" | 4 => "4" | 5 => "5"
  | 6 => "6" | 7 => "7" | 8 => "8" | 9 => "9" | 10 => "a" | 11 => "b"
  | 12 => "c" | 13 => "d" | 14 => "e" | _ => "f"
  end%char.

Definition hex_escape (c : ascii) : string :=
  let n := nat_of_ascii c in
  String "\" (String "x"
    (String (hex_digit (n / 16)) (String (hex_digit (n mod 16)) ""))).

(** Printable code points below 256: the graphic ASCII characters and
    0xA1..0xFF without the soft hyphen 0xAD. *)
Definition is_printable (c : ascii) : bool :=
  let n := nat_of_ascii c in
  ((32 <=? n) && (n <? 127)) || ((161 <=? n) && negb (n =? 173)).

Definition repr_char (quote c : ascii) : string :=
  if Ascii.eqb c quote || Ascii.eqb c "\" then String "\" (String c "")
  else if Ascii.eqb c "009" then "\t"
  else if Ascii.eqb c "010" then "\n"
  else if Ascii.eqb c "013" then "\r"
  else if is_printable c then String c ""
  else hex_escape c.

Fixpoint repr_body (quote : ascii) (s : string) : string :=
  match s with
  | "" => ""
  | String c s' => repr_char quote c +:+ repr_body quote s'
  end.

Definition double_quote : ascii := ascii_of_nat 34.

(** [repr(s)]: double quotes are chosen when [s] holds a single quote
    and no double quote, single quotes otherwise. *)
Definition repr (s : string) : string :=
  let quote : ascii :=
    if contains_char "'" s && negb (contains_char double_quote s)
    then double_quote else "'"%char in
  String quote (repr_body quote s +:+ String quote "").

(** [str(l)] for a list [l] of [str]. *)
Definition str_of_list (l : list string) : string :=
  "[" +:+ join ", " (repr <$> l) +:+ "]".

(** [s.lower()] for code points below 256: A..Z and the accented capitals
    0xC0..0xDE without the multiplication sign 0xD7. *)
Definition lower_char (c : ascii) : ascii :=
  let n := nat_of_ascii c in
  if ((65 <=? n) && (n <=? 90))
     || ((192 <=? n) && (n <=? 222) && negb (n =? 215))
  then ascii_of_nat (n + 32) else c.

Fixpoint lower (s : string) : string :=
  match s with
  | "" => ""
  | String c s' => String (lower_char c) (lower s')
  end.

Definition nonempty (s : string) : bool :=
  match s with "" => false | _ => true end.

End PyStr.


(** ** [os.path] (posixpath) *)
Module PosixPath.

Definition sep : string := "/".

Definition isabs (p : string) : bool := String.prefix sep p.

Fixpoint endswith_sep (s : string) : bool :=
  match s with
  | "" => false
  | String c "" => Ascii.eqb c "/"
  | String _ s' => endswith_sep s'
  end.

(** [os.path.join(a, b)] *)
Definition join (a b : string) : string :=
  if String.prefix sep b then b
  else if negb (PyStr.nonempty a) || endswith_sep a then a +:+ b
  else a +:+ sep +:+ b.

(** One turn of the loop of [normpath] over the components. *)
Definition normpath_step (initial_slashes : nat) (new_comps : list string)
    (comp : string) : list string :=
  if bool_decide (comp = "") || bool_decide (comp = ".") then new_comps
  else if negb (bool_decide (comp = ".."))
          || (bool_decide (initial_slashes = 0)
              && bool_decide (new_comps = []))
          || (negb (bool_decide (new_comps = []))
              && bool_decide (last new_comps = Some ".."))
  then new_comps ++ [comp]
  else removelast new_comps.

Fixpoint repeat_sep (n : nat) : string :=
  match n with
  | 0 => ""
  | S k => sep +:+ repeat_sep k
  end.

(** POSIX allows one or two initial slashes, and treats three or more as
    a single one. *)
Definition count_initial_slashes (path : string) : nat :=
  if String.prefix sep path
  then if String.prefix "//" path && negb (String.prefix "///" path)
       then 2 else 1
  else 0.

(** [os.path.normpath(path)] *)
Definition normpath (path : string) : string :=
  if negb (PyStr.nonempty path) then "."
  else
    let initial_slashes := count_initial_slashes path in
    let comps := PyStr.split path sep in
    let new_comps := foldl (normpath_step initial_slashes) [] comps in
    let path := PyStr.join sep new_comps in
    let path := repeat_sep initial_slashes +:+ path in
    if PyStr.nonempty path then path else ".".

(** [os.path.abspath(path)], with [cwd] the value of [os.getcwd()]. *)
Definition abspath (cwd path : string) : string :=
  let path := if isabs path then path else join cwd path in
  normpath path.

End PosixPath.

(** ** Exceptions and results *)

Inductive exn : Type :=
| UnboundLocalError (name : string)
| NameError (name : string)
| AttributeError (attr : string)
| NoSectionError (section : string)
| NoOptionError (option section : string)
| DuplicateSectionError (section : string)
| ValueError
| ParsingError
| EOFError
| FileNotFoundError (path : string)
| PermissionError (path : string)
| UnprocessableEntity
| GitHubError (code : nat).

Inductive outcome (A : Type) : Type :=
| Ok (a : A)
| Raise (e : exn).
Arguments Ok {A} a.
Arguments Raise {A} e.

#[global] Instance exn_eq_dec : EqDecision exn.
Proof. solve_decision. Defined.

(** ** [configparser.RawConfigParser]

    The parser is the table of its default options and of its sections; [V]
    is the type of the values held (strings after a read, whatever [set] was
    given otherwise). *)
Module ConfigParser.

Record RawConfigParser (V : Type) : Type := {
  defaults : gmap string V;
  sections : gmap string (gmap string V)
}.
Arguments defaults {V} _.
Arguments sections {V} _.

Definition DEFAULTSECT : string := "DEFAULT".

(** [RawConfigParser()] *)
Definition new {V} : RawConfigParser V :=
  {| defaults := ∅; sections := ∅ |}.

Definition optionxform (option : string) : string := PyStr.lower option.

(** [parser.get(section, option)]: the options of the section, then the
    defaults. *)
Definition get {V} (parser : RawConfigParser V) (section option : string)
    : outcome V :=
  let found (sectiondict : gmap string V) :=
    match sectiondict !! optionxform option with
    | Some value => Ok value
    | None =>
        match defaults parser !! optionxform option with
        | Some value => Ok value
        | None => Raise (NoOptionError (optionxform option) section)
        end
    end in
  match sections parser !! section with
  | Some sectiondict => found sectiondict
  | None =>
      if bool_decide (section = DEFAULTSECT) then found ∅
      else Raise (NoSectionError section)
  end.

(** [parser.add_section(section)] *)
Definition add_section {V} (parser : RawConfigParser V) (section : string)
    : outcome (RawConfigParser V) :=
  if bool_decide (section = DEFAULTSECT) then Raise ValueError
  else
    match sections parser !! section with
    | Some _ => Raise (DuplicateSectionError section)
    | None =>
        Ok {| defaults := defaults parser;
              sections := <[section := ∅]> (sections parser) |}
    end.

(** [parser.set(section, option, value)] *)
Definition set {V} (parser : RawConfigParser V) (section option : string)
    (value : V) : outcome (RawConfigParser V) :=
  if negb (PyStr.nonempty section) || bool_decide (section = DEFAULTSECT)
  then Ok {| defaults := <[optionxform option := value]> (defaults parser);
             sections := sections parser |}
  else
    match sections parser !! section with
    | Some sectdict =>
        Ok {| defaults := defaults parser;
              sections := <[section := <[optionxform option := value]> sectdict]>
                            (sections parser) |}
    | None => Raise (NoSectionError section)
    end.

(** [parser.write(fp)]: the table handed to the file, each value through
    [str]. *)
Definition write {V} (str : V -> string) (parser : RawConfigParser V)
    : RawConfigParser string :=
  {| defaults := str <$> defaults parser;
     sections := (fun sectdict : gmap string V => str <$> sectdict)
                   <$> sections parser |}.

(** [parser.readfp(fp)] on the table [table] read from [fp]: its options
    are added to the parser's, replacing those of the same name. *)
Definition read_table (parser table : RawConfigParser string)
    : RawConfigParser string :=
  {| defaults := defaults table ∪ defaults parser;
     sections := union_with (fun new old => Some (new ∪ old))
                            (sections table) (sections parser) |}.

End ConfigParser.
Import ConfigParser.

(** ** The world outside the process *)

(** What a file holds: text that [RawConfigParser] reads as a table of
    sections (the file is identified with that table, which is also what
    [RawConfigParser.write] leaves in it), or any other text. *)
Inductive FileData : Type :=
| IniText (table : RawConfigParser string)
| OtherText (text : string).

Record File : Type := {
  readable : bool;
  writable : bool;
  data : FileData
}.

(** The arguments of [github3.login] and [github3.authorize]. *)
Inductive Callback : Type := request_two_factor_code_method.

Record LoginArgs : Type := {
  login_username : option string;
  login_password : option string;
  login_token : option string;
  login_two_factor_callback : option Callback
}.

Record AuthorizeArgs : Type := {
  authorize_login : string;
  authorize_password : string;
  authorize_scopes : list string;
  authorize_note : string;
  authorize_note_url : string
}.

Record Authorization : Type := { token : string }.

Inductive ApiCall : Type :=
| CallLogin (args : LoginArgs)
| CallAuthorize (args : AuthorizeArgs).

(** [gitsome.lib.github3] is outside this module: its [login] and
    [authorize] are taken as they come. [login] builds a session handle
    and does not raise; [authorize] is the remote call and may. *)
Record GitHub3 : Type := {
  Session : Type;
  login : LoginArgs -> Session;
  authorize : AuthorizeArgs -> outcome Authorization
}.

Record World : Type := {
  environ : gmap string string;
  cwd : string;
  fs : gmap string File;
  stdin : list string;
  stdout : list string;
  api_calls : list ApiCall
}.

#[global] Instance callback_eq_dec : EqDecision Callback.
Proof. solve_decision. Defined.
#[global] Instance login_args_eq_dec : EqDecision LoginArgs.
Proof. solve_decision. Defined.
#[global] Instance authorize_args_eq_dec : EqDecision AuthorizeArgs.
Proof. solve_decision. Defined.
#[global] Instance api_call_eq_dec : EqDecision ApiCall.
Proof. solve_decision. Defined.


(** ** The [Config] object and the monad of its methods *)

Record Config (gh : GitHub3) : Type := {
  api : option (Session gh);
  user_login : option string;
  user_pass : option string;
  user_token : option string;
  user_feed : option string;
  (** [None]: the attribute is not set yet. *)
  urls : option (list string)
}.
Arguments api {gh} _.
Arguments user_login {gh} _.
Arguments user_pass {gh} _.
Arguments user_token {gh} _.
Arguments user_feed {gh} _.
Arguments urls {gh} _.

Record State (gh : GitHub3) : Type := {
  self : Config gh;
  world : World
}.
Arguments self {gh} _.
Arguments world {gh} _.

(** A method call: it starts in a state and ends in one, with a value or
    with an exception; what was done before the exception stays done. *)
Definition M (gh : GitHub3) (A : Type) : Type :=
  State gh -> outcome A * State gh.

Section Methods.
Context {gh : GitHub3}.

Definition ret {A} (a : A) : M gh A := fun st => (Ok a, st).

Definition raise {A} (e : exn) : M gh A := fun st => (Raise e, st).

Definition bind {A B} (m : M gh A) (k : A -> M gh B) : M gh B :=
  fun st =>
    match m st with
    | (Ok a, st') => k a st'
    | (Raise e, st') => (Raise e, st')
    end.

(** [try: m  except ...: handler], the handler deciding which exceptions it
    takes (and raising the others again). *)
Definition try_except {A} (m : M gh A) (handler : exn -> M gh A) : M gh A :=
  fun st =>
    match m st with
    | (Ok a, st') => (Ok a, st')
    | (Raise e, st') => handler e st'
    end.

Definition lift {A} (r : outcome A) : M gh A := fun st => (r, st).

Definition get_world : M gh World := fun st => (Ok (world st), st).

Definition get_self : M gh (Config gh) := fun st => (Ok (self st), st).

Definition put_world (w : World) : M gh unit :=
  fun st => (Ok tt, {| self := self st; world := w |}).

Definition put_self (c : Config gh) : M gh unit :=
  fun st => (Ok tt, {| self := c; world := world st |}).

End Methods.

#[global] Instance M_ret {gh} : MRet (M gh) := @ret gh.
#[global] Instance M_bind {gh} : MBind (M gh) :=
  fun A B k m => bind m k.

(** ** Names, files, the terminal and the remote calls *)

(** The names bound at module level by [config.py] (its imports and its
    class) and the builtins it refers to. *)
Definition module_names : list string :=
  ["os"; "configparser"; "authorize"; "login"; "Config"].

Definition builtin_names : list string := ["input"; "open"].

Definition name_bound (name : string) : bool :=
  bool_decide (name ∈ module_names ++ builtin_names).

Section Primitives.
Context {gh : GitHub3}.

(** Evaluating a global name. *)
Definition lookup_name (name : string) : M gh unit :=
  if name_bound name then mret tt else raise (NameError name).

(** Evaluating a local variable; [None] is a local not assigned yet. *)
Definition read_local {A} (name : string) (v : option A) : M gh A :=
  match v with
  | Some a => mret a
  | None => raise (UnboundLocalError name)
  end.

Definition with_fs (w : World) (fs' : gmap string File) : World :=
  {| environ := environ w; cwd := cwd w; fs := fs';
     stdin := stdin w; stdout := stdout w; api_calls := api_calls w |}.

Definition with_terminal (w : World) (stdin' stdout' : list string) : World :=
  {| environ := environ w; cwd := cwd w; fs := fs w;
     stdin := stdin'; stdout := stdout'; api_calls := api_calls w |}.

Definition with_api_calls (w : World) (calls : list ApiCall) : World :=
  {| environ := environ w; cwd := cwd w; fs := fs w;
     stdin := stdin w; stdout := stdout w; api_calls := calls |}.

(** [os.path.isfile(path) and os.access(path, os.R_OK | os.W_OK)] *)
Definition isfile_and_access (path : string) : M gh bool :=
  w ← get_world;
  mret (match fs w !! path with
        | Some f => readable f && writable f
        | None => false
        end).

(** [open(path)] followed by reading the whole file. *)
Definition open_read (path : string) : M gh FileData :=
  w ← get_world;
  match fs w !! path with
  | Some f => if readable f then mret (data f)
              else raise (PermissionError path)
  | None => raise (FileNotFoundError path)
  end.

(** [parser.readfp(config_file)] ([readfp] is there up to Python 3.11) *)
Definition readfp (parser : RawConfigParser string) (config_file : FileData)
    : M gh (RawConfigParser string) :=
  match config_file with
  | IniText table => mret (read_table parser table)
  | OtherText _ => raise ParsingError
  end.

(** [with open(path, 'w+') as config_file: parser.write(config_file)]:
    the file is created when absent, emptied otherwise, and left holding
    the table written. The file system is a flat map of regular files:
    the directory of [path] is taken to be there and to accept new
    files. *)
Definition open_write (path : string) (table : RawConfigParser string)
    : M gh unit :=
  w ← get_world;
  match fs w !! path with
  | Some f =>
      if readable f && writable f
      then put_world (with_fs w (<[path := {| readable := readable f;
                                              writable := writable f;
                                              data := IniText table |}]> (fs w)))
      else raise (PermissionError path)
  | None =>
      put_world (with_fs w (<[path := {| readable := true;
                                         writable := true;
                                         data := IniText table |}]> (fs w)))
  end.

(** [while not v: v = f(prompt)] started with [v] bound, over the lines
    still to come on the terminal: each turn evaluates the name [f], shows
    the prompt and reads a line. *)
Fixpoint while_not_read (f prompt : string) (v : string)
    (lines out : list string) : outcome string * (list string * list string) :=
  if PyStr.nonempty v then (Ok v, (lines, out))
  else if negb (name_bound f) then (Raise (NameError f), (lines, out))
  else
    match lines with
    | [] => (Raise EOFError, ([], out ++ [prompt]))
    | line :: lines' => while_not_read f prompt line lines' (out ++ [prompt])
    end.

Definition while_not (f prompt : string) (v : string) : M gh string :=
  fun st =>
    let w := world st in
    let '(r, (lines, out)) := while_not_read f prompt v (stdin w) (stdout w) in
    (r, {| self := self st; world := with_terminal w lines out |}).

(** [click.secho(message, fg='red')] *)
Definition secho (message : string) : M gh unit :=
  w ← get_world;
  put_world (with_terminal w (stdin w) (stdout w ++ [message])).

(** [login(...)] of github3 *)
Definition call_login (args : LoginArgs) : M gh (Session gh) :=
  w ← get_world;
  put_world (with_api_calls w (api_calls w ++ [CallLogin args]));;
  mret (login gh args).

(** [authorize(...)] of github3 *)
Definition call_authorize (args : AuthorizeArgs) : M gh Authorization :=
  w ← get_world;
  put_world (with_api_calls w (api_calls w ++ [CallAuthorize args]));;
  lift (authorize gh args).

(** [parser.get], [parser.add_section] and [parser.set] as steps of a
    method. *)
Definition parser_get {V} (parser : RawConfigParser V)
    (section option : string) : M gh V :=
  lift (ConfigParser.get parser section option).

Definition parser_add_section {V} (parser : RawConfigParser V)
    (section : string) : M gh (RawConfigParser V) :=
  lift (ConfigParser.add_section parser section).

Definition parser_set {V} (parser : RawConfigParser V)
    (section option : string) (value : V) : M gh (RawConfigParser V) :=
  lift (ConfigParser.set parser section option value).

End Primitives.


(** ** class [Config] *)

Definition CONFIG : string := ".githubconfig".
Definition CONFIG_SECTION : string := "github".
Definition CONFIG_USER_LOGIN : string := "user_login".
Definition CONFIG_USER_PASS : string := "user_pass".
Definition CONFIG_USER_TOKEN : string := "user_token".
Definition CONFIG_USER_FEED : string := "user_feed".
Definition CONFIG_URL : string := ".githubconfigurl".
Definition CONFIG_URL_SECTION : string := "url".
Definition CONFIG_URL_LIST : string := "url_list".
Definition CONFIG_AVATAR : string := ".githubconfigavatar.png".

Definition GITHUB_URL : string := "https://github.com/".

Section ConfigClass.
Context {gh : GitHub3}.

(** Assignments to the attributes of [self]. *)
Definition assign_api (v : option (Session gh)) : M gh unit :=
  c ← get_self;
  put_self {| api := v; user_login := user_login c; user_pass := user_pass c;
              user_token := user_token c; user_feed := user_feed c;
              urls := urls c |}.

Definition assign_user_login (v : option string) : M gh unit :=
  c ← get_self;
  put_self {| api := api c; user_login := v; user_pass := user_pass c;
              user_token := user_token c; user_feed := user_feed c;
              urls := urls c |}.

Definition assign_user_feed (v : option string) : M gh unit :=
  c ← get_self;
  put_self {| api := api c; user_login := user_login c;
              user_pass := user_pass c; user_token := user_token c;
              user_feed := v; urls := urls c |}.

Definition assign_urls (v : list string) : M gh unit :=
  c ← get_self;
  put_self {| api := api c; user_login := user_login c;
              user_pass := user_pass c; user_token := user_token c;
              user_feed := user_feed c; urls := Some v |}.

(** [self.urls] *)
Definition read_urls : M gh (list string) :=
  c ← get_self;
  match urls c with
  | Some l => mret l
  | None => raise (AttributeError "urls")
  end.

(** [auth.token], [auth] being [None] or an authorization. *)
Definition read_token (auth : option Authorization) : M gh string :=
  match auth with
  | Some a => mret (token a)
  | None => raise (AttributeError "token")
  end.

Definition get_github_config_path (config_file_name : string) : M gh string :=
  w ← get_world;
  let home := PosixPath.abspath (cwd w) (default "" (environ w !! "HOME")) in
  let config_file_path := PosixPath.join home config_file_name in
  mret config_file_path.

Definition request_two_factor_code : M gh string :=
  let code := "" in
  code ← while_not "input" "Enter 2FA code: " code;
  mret code.

Definition authenticate : M gh unit :=
  config ← get_github_config_path CONFIG;
  let parser : RawConfigParser string := ConfigParser.new in
  ok ← isfile_and_access config;
  if ok : bool then
    config_file ← open_read config;
    parser ← readfp parser config_file;
    v ← parser_get parser CONFIG_SECTION CONFIG_USER_LOGIN;
    assign_user_login (Some v);;
    try_except
      (username ← parser_get parser CONFIG_SECTION CONFIG_USER_LOGIN;
       tok ← parser_get parser CONFIG_SECTION CONFIG_USER_TOKEN;
       session ← call_login
         {| login_username := Some username;
            login_password := None;
            login_token := Some tok;
            login_two_factor_callback := Some request_two_factor_code_method |};
       assign_api (Some session))
      (fun e =>
         match e with
         | NoOptionError _ _ =>
             username ← parser_get parser CONFIG_SECTION CONFIG_USER_LOGIN;
             password ← parser_get parser CONFIG_SECTION CONFIG_USER_PASS;
             session ← call_login
               {| login_username := Some username;
                  login_password := Some password;
                  login_token := None;
                  login_two_factor_callback :=
                    Some request_two_factor_code_method |};
             assign_api (Some session)
         | _ => raise e
         end);;
    feed ← parser_get parser CONFIG_SECTION CONFIG_USER_FEED;
    assign_user_feed (Some feed)
  else
    assign_user_login (Some "");;
    (* the local [user_login] has no value yet *)
    let local_user_login : option string := None in
    user_login ← read_local "user_login" local_user_login;
    user_login ← while_not "input" "User Login: " user_login;
    let user_pass := "" in
    user_pass ← while_not "getpass" "Password: " user_pass;
    let auth : option Authorization := None in
    auth ← try_except
      (a ← call_authorize
         {| authorize_login := user_login;
            authorize_password := user_pass;
            authorize_scopes := ["user"; "repo"; "gist"];
            authorize_note := "githubcli";
            authorize_note_url := "https://github.com/donnemartin/github-cli" |};
       mret (Some a))
      (fun e =>
         lookup_name "UnprocessableEntity";;
         match e with
         | UnprocessableEntity =>
             lookup_name "click";;
             githubconfig ← raise (AttributeError "githubconfig");
             secho ("Error creating token.
Visit the following page and verify you do not have an existing token named "
                    +:+ String PyStr.double_quote "githubcli"
                    +:+ String PyStr.double_quote ":
See https://github.com/settings/tokens
If a token already exists update your " +:+ githubconfig
                    +:+ " file with your user_token.");;
             mret auth
         | _ => raise e
         end);
    parser ← parser_add_section parser CONFIG_SECTION;
    parser ← parser_set parser CONFIG_SECTION CONFIG_USER_LOGIN user_login;
    parser ← parser_set parser CONFIG_SECTION CONFIG_USER_PASS user_pass;
    tok ← read_token auth;
    parser ← parser_set parser CONFIG_SECTION CONFIG_USER_TOKEN tok;
    tok ← read_token auth;
    session ← call_login
      {| login_username := None;
         login_password := None;
         login_token := Some tok;
         login_two_factor_callback := Some request_two_factor_code_method |};
    assign_api (Some session);;
    open_write config (ConfigParser.write id parser).

(** [Config()]: the state of the fresh object before [__init__] assigns
    anything is never read. *)
Definition __init__ : M gh unit :=
  put_self {| api := None; user_login := None; user_pass := None;
              user_token := None; user_feed := None; urls := None |};;
  authenticate;;
  assign_urls [].

(** The body of the [with] block of [load_urls] once the stored value is
    read. *)
Definition clean_urls (view_in_browser : bool) (urls : string) : list string :=
  let urls := PyStr.strip urls in
  let excludes := ["["; "]"; "'"] in
  let urls :=
    foldl (fun urls exclude =>
             let urls := PyStr.replace urls exclude "" in
             if negb view_in_browser
             then PyStr.replace urls GITHUB_URL ""
             else urls)
          urls excludes in
  PyStr.split urls ", ".

Definition load_urls (view_in_browser : bool) : M gh (list string) :=
  config ← get_github_config_path CONFIG_URL;
  let parser : RawConfigParser string := ConfigParser.new in
  config_file ← open_read config;
  parser ← readfp parser config_file;
  urls ← parser_get parser CONFIG_URL_SECTION CONFIG_URL_LIST;
  mret (clean_urls view_in_browser urls).

Definition save_urls : M gh unit :=
  config ← get_github_config_path CONFIG_URL;
  let parser : RawConfigParser (list string) := ConfigParser.new in
  parser ← try_except
    (parser_add_section parser CONFIG_URL_SECTION)
    (fun e =>
       lookup_name "DuplicateSectionError";;
       match e with
       | DuplicateSectionError _ => mret parser
       | _ => raise e
       end);
  urls ← read_urls;
  parser ← parser_set parser CONFIG_URL_SECTION CONFIG_URL_LIST urls;
  open_write config (ConfigParser.write PyStr.str_of_list parser).

End ConfigClass.


(** ** Vocabulary of the statements *)

(** Where [authenticate] looks for the credentials and where the url list
    is kept. *)
Definition credentials_path (w : World) : string :=
  PosixPath.join
    (PosixPath.abspath (cwd w) (default "" (environ w !! "HOME"))) CONFIG.

Definition urls_path (w : World) : string :=
  PosixPath.join
    (PosixPath.abspath (cwd w) (default "" (environ w !! "HOME"))) CONFIG_URL.

(** The credentials file is there and may be read and written. *)
Definition credentials_file (w : World) (table : RawConfigParser string)
    : Prop :=
  exists f, fs w !! credentials_path w = Some f
            /\ readable f = true /\ writable f = true
            /\ data f = IniText table.

(** The credentials file is missing, or not both readable and writable. *)
Definition no_credentials_file (w : World) : Prop :=
  match fs w !! credentials_path w with
  | Some f => readable f && writable f = false
  | None => True
  end.

Definition token_login (username tok : string) : LoginArgs :=
  {| login_username := Some username;
     login_password := None;
     login_token := Some tok;
     login_two_factor_callback := Some request_two_factor_code_method |}.

Definition password_login (username password : string) : LoginArgs :=
  {| login_username := Some username;
     login_password := Some password;
     login_token := None;
     login_two_factor_callback := Some request_two_factor_code_method |}.

(** An attribute holds a non-empty string. *)
Definition is_set (v : option string) : Prop :=
  exists s, v = Some s /\ s <> "".

(** The invariant of the data model: a login, and exactly one of token
    and password. *)
Definition credentials_invariant {gh} (c : Config gh) : Prop :=
  is_set (user_login c)
  /\ ((is_set (user_token c) /\ ~ is_set (user_pass c))
      \/ (~ is_set (user_token c) /\ is_set (user_pass c))).

(** The state a method leaves and the value it gives. *)
Definition final {gh A} (m : M gh A) (st : State gh) : State gh := snd (m st).
Definition result {gh A} (m : M gh A) (st : State gh) : outcome A := fst (m st).

(** ** States reached by [authenticate] *)

Section Reached.
Context {gh : GitHub3}.

(** [self.user_login] assigned. *)
Definition with_user_login (st : State gh) (v : string) : State gh :=
  {| self := {| api := api (self st); user_login := Some v;
                user_pass := user_pass (self st);
                user_token := user_token (self st);
                user_feed := user_feed (self st);
                urls := urls (self st) |};
     world := world st |}.

(** [login] called with [args] and its session kept in [self.api]. *)
Definition with_session (st : State gh) (args : LoginArgs) : State gh :=
  {| self := {| api := Some (login gh args);
                user_login := user_login (self st);
                user_pass := user_pass (self st);
                user_token := user_token (self st);
                user_feed := user_feed (self st);
                urls := urls (self st) |};
     world := with_api_calls (world st)
                (api_calls (world st) ++ [CallLogin args]) |}.

(** [self.user_feed] assigned. *)
Definition with_user_feed (st : State gh) (v : string) : State gh :=
  {| self := {| api := api (self st); user_login := user_login (self st);
                user_pass := user_pass (self st);
                user_token := user_token (self st);
                user_feed := Some v;
                urls := urls (self st) |};
     world := world st |}.

(** The last step of the saved-credentials branch. *)
Definition read_feed (table : RawConfigParser string) (st : State gh)
    : outcome unit * State gh :=
  match ConfigParser.get table CONFIG_SECTION CONFIG_USER_FEED with
  | Ok feed => (Ok tt, with_user_feed st feed)
  | Raise e => (Raise e, st)
  end.

(** The saved-credentials branch of [authenticate], by cases on what the
    table holds. *)
Definition saved_credentials_run (table : RawConfigParser string)
    (st : State gh) : outcome unit * State gh :=
  match ConfigParser.get table CONFIG_SECTION CONFIG_USER_LOGIN with
  | Raise e => (Raise e, st)
  | Ok username =>
      let st := with_user_login st username in
      match ConfigParser.get table CONFIG_SECTION CONFIG_USER_TOKEN with
      | Ok tok => read_feed table (with_session st (token_login username tok))
      | Raise (NoOptionError _ _) =>
          match ConfigParser.get table CONFIG_SECTION CONFIG_USER_PASS with
          | Ok password =>
              read_feed table
                (with_session st (password_login username password))
          | Raise e => (Raise e, st)
          end
      | Raise e => (Raise e, st)
      end
  end.

End Reached.

(** The calls to github3 made between two states. *)
Definition calls_made {gh} (st st' : State gh) : list ApiCall :=
  drop (length (api_calls (world st))) (api_calls (world st')).

(** Exactly one credential is handed to [login]. *)
Definition one_credential (args : LoginArgs) : Prop :=
  (is_Some (login_token args) /\ login_password args = None)
  \/ (login_token args = None /\ is_Some (login_password args)).

(** The table [save_urls] writes for the list [l]. *)
Definition url_table (l : list string) : RawConfigParser string :=
  {| defaults := ∅;
     sections := {[ CONFIG_URL_SECTION :=
                      {[ CONFIG_URL_LIST := PyStr.str_of_list l ]} ]} |}.

(** [self.urls = l] followed by [self.save_urls()]. *)
Definition save_list {gh} (l : list string) : M gh unit :=
  assign_urls l;; save_urls.

(** The file an [open(path, 'w+')] followed by a write leaves at [path]. *)
Definition written_file (old : option File) (table : RawConfigParser string)
    : File :=
  match old with
  | Some f => {| readable := readable f; writable := writable f;
                 data := IniText table |}
  | None => {| readable := true; writable := true; data := IniText table |}
  end.

(** ** Vocabulary of the statements about url lists *)

(** [s] with every [c] deleted. *)
Fixpoint remove_char (c : ascii) (s : string) : string :=
  match s with
  | "" => ""
  | String d s' =>
      if Ascii.eqb c d then remove_char c s' else String d (remove_char c s')
  end.

(** [s[k:]] *)
Fixpoint string_drop (k : nat) (s : string) : string :=
  match k, s with
  | S k', String _ s' => string_drop k' s'
  | _, _ => s
  end.

(** [p in s]: the string [p] occurs somewhere in [s]. *)
Fixpoint has_sub (p s : string) : bool :=
  match s with
  | "" => String.prefix p ""
  | String _ s' => String.prefix p s || has_sub p s'
  end.

(** An entry that holds none of the characters [load_urls] deletes, nor
    the separator of the list, nor the address of GitHub. *)
Definition plain_entry (e : string) : Prop :=
  PyStr.contains_char "[" e = false
  /\ PyStr.contains_char "]" e = false
  /\ PyStr.contains_char "'" e = false
  /\ has_sub ", " e = false
  /\ has_sub GITHUB_URL e = false.

(** No match of [p] can start in the text before [u] and end in [u]. *)
Definition no_straddle (p u : string) : Prop :=
  forall k, 1 <= k -> k < String.length p ->
            String.prefix (string_drop k p) u = false.

(** The entries [e :: es], each through [f], joined by the separator and
    followed by [suffix]. *)
Definition framed (f : string -> string) (suffix : string) (e : string)
    (es : list string) : string :=
  f e +:+ foldr (fun x acc => ", " +:+ f x +:+ acc) suffix es.

(** An entry as the list shows it, and the same with the address gone. *)
Definition quoted_url (e : string) : string :=
  "'" +:+ GITHUB_URL +:+ e +:+ "'".

Definition quoted (e : string) : string := "'" +:+ e +:+ "'".

(** The text of a list of urls of GitHub, [entries] being what follows
    the address in each: ['https://github.com/a/b', ...]. *)
Definition stored_list (entries : list string) : string :=
  "[" +:+ PyStr.join ", "
            (quoted_url <$> entries)
      +:+ "]".

(** A string whose [repr] is the string between single quotes: printable
    characters, no single quote and no backslash. *)
Fixpoint repr_plain (s : string) : bool :=
  match s with
  | "" => true
  | String c s' =>
      PyStr.is_printable c && negb (Ascii.eqb c "'") && negb (Ascii.eqb c "\")
      && repr_plain s'
  end.

(** The url file is there, may be read, and holds [raw] as its list. *)
Definition url_file (w : World) (raw : string) : Prop :=
  exists f table, fs w !! urls_path w = Some f
                  /\ readable f = true
                  /\ data f = IniText table
                  /\ ConfigParser.get table CONFIG_URL_SECTION CONFIG_URL_LIST
                     = Ok raw.

(** ** Sample inputs *)

(** A [github3] whose sessions are the arguments they were built from,
    and whose [authorize] answers as told. *)
Definition sample_github3 (answer : outcome Authorization) : GitHub3 :=
  {| Session := LoginArgs;
     login := fun args => args;
     authorize := fun _ => answer |}.

Definition rejecting_github3 : GitHub3 :=
  sample_github3 (Raise UnprocessableEntity).

Definition sample_world (files : gmap string File) (lines : list string)
    : World :=
  {| environ := {[ "HOME" := "/home/octocat" ]};
     cwd := "/work";
     fs := files;
     stdin := lines;
     stdout := [];
     api_calls := [] |}.

(** The same world with no [HOME] in the environment. *)
Definition sample_world_no_home : World :=
  {| environ := ∅; cwd := "/work"; fs := ∅;
     stdin := []; stdout := []; api_calls := [] |}.

Definition fresh_config (gh : GitHub3) : Config gh :=
  {| api := None; user_login := None; user_pass := None;
     user_token := None; user_feed := None; urls := None |}.

Definition sample_state (gh : GitHub3) (files : gmap string File)
    (lines : list string) : State gh :=
  {| self := fresh_config gh; world := sample_world files lines |}.

Definition github_section (options : list (string * string))
    : RawConfigParser string :=
  {| defaults := ∅; sections := {[ "github" := list_to_map options ]} |}.

Definition sample_file (table : RawConfigParser string) : File :=
  {| readable := true; writable := true; data := IniText table |}.

(** A url file that holds [raw] as its list. *)
Definition url_state (raw : string) : State rejecting_github3 :=
  sample_state rejecting_github3
    {[ "/home/octocat/.githubconfigurl" :=
         sample_file
           {| defaults := ∅;
              sections := {[ "url" := {[ "url_list" := raw ]} ]} |} ]} [].

(** A list whose urls hold a bracket and the address of GitHub inside. *)
Definition unusual_urls : string :=
  "['https://github.com/a/b[1]', 'https://github.com/x/https://github.com/y']".

(** A url in which deleting the address of GitHub forms it again, three
    times over. *)
Definition nested_urls : string :=
  "['https://githhttps://githhttps://githhttps://github.com/ub.com/ub.com/ub.com/x']".

(** Saved credentials with a token, a password and a feed. *)
Definition token_and_pass_table : RawConfigParser string :=
  github_section [("user_login", "octocat"); ("user_token", "t0k3n");
                  ("user_pass", "hunter2"); ("user_feed", "https://feed")].

Definition token_and_pass_state : State rejecting_github3 :=
  sample_state rejecting_github3
    {[ "/home/octocat/.githubconfig" := sample_file token_and_pass_table ]} [].

(** No credentials file; the user is ready to type. *)
Definition first_run_state : State rejecting_github3 :=
  sample_state rejecting_github3 ∅ ["octocat"; "hunter2"].

(** The same, the user first pressing return at each prompt. *)
Definition hesitant_state : State rejecting_github3 :=
  sample_state rejecting_github3 ∅ [""; "octocat"; ""; "hunter2"].

(** A credentials file that nobody may write. *)
Definition read_only_state : State rejecting_github3 :=
  sample_state rejecting_github3
    {[ "/home/octocat/.githubconfig" :=
         {| readable := true; writable := false;
            data := IniText token_and_pass_table |} ]} [].

(** Saved credentials with a password only. *)
Definition pass_only_table : RawConfigParser string :=
  github_section [("user_login", "octocat"); ("user_pass", "hunter2");
                  ("user_feed", "https://feed")].

Definition pass_only_state : State rejecting_github3 :=
  sample_state rejecting_github3
    {[ "/home/octocat/.githubconfig" := sample_file pass_only_table ]} [].

(** Saved credentials whose login is empty. *)
Definition empty_login_table : RawConfigParser string :=
  github_section [("user_login", ""); ("user_token", "t0k3n");
                  ("user_feed", "https://feed")].

Definition empty_login_state : State rejecting_github3 :=
  sample_state rejecting_github3
    {[ "/home/octocat/.githubconfig" := sample_file empty_login_table ]} [].


(** ** Further sample inputs *)

(** Saved credentials in a table of one's choice. *)
Definition credentials_state (table : RawConfigParser string)
    : State rejecting_github3 :=
  sample_state rejecting_github3
    {[ "/home/octocat/.githubconfig" := sample_file table ]} [].

(** Saved credentials without a login, with a login and nothing else, and
    without a feed. *)
Definition no_login_table : RawConfigParser string :=
  github_section [("user_token", "t0k3n"); ("user_feed", "https://feed")].

Definition login_only_table : RawConfigParser string :=
  github_section [("user_login", "octocat"); ("user_feed", "https://feed")].

Definition no_feed_table : RawConfigParser string :=
  github_section [("user_login", "octocat"); ("user_token", "t0k3n")].

(** Nothing on disk, and the lines the user will type. *)
Definition terminal_state (lines : list string) : State rejecting_github3 :=
  sample_state rejecting_github3 ∅ lines.

(** A url file in a table of one's choice, and one that may not be read. *)
Definition url_table_state (table : RawConfigParser string)
    : State rejecting_github3 :=
  sample_state rejecting_github3
    {[ "/home/octocat/.githubconfigurl" := sample_file table ]} [].

Definition unreadable_url_state : State rejecting_github3 :=
  sample_state rejecting_github3
    {[ "/home/octocat/.githubconfigurl" :=
         {| readable := false; writable := true;
            data := IniText (url_table []) |} ]} [].

(** A list of urls to save, and a url file that may be read and not
    written. *)
Definition read_only_url_state : State rejecting_github3 :=
  {| self := {| api := None; user_login := None; user_pass := None;
                user_token := None; user_feed := None;
                urls := Some ["https://github.com/a/b"] |};
     world := sample_world
                {[ "/home/octocat/.githubconfigurl" :=
                     {| readable := true; writable := false;
                        data := IniText (url_table ["https://github.com/c/d"]) |} ]}
                [] |}.

(** A url file whose only section is another one, and one whose [url]
    section is empty. *)
Definition no_url_section_table : RawConfigParser string :=
  github_section [("user_login", "octocat")].

Definition empty_url_section_table : RawConfigParser string :=
  {| defaults := ∅; sections := {[ "url" := ∅ ]} |}.

(** Both files on disk, and a list of urls to save. *)
Definition both_files_state : State rejecting_github3 :=
  {| self := {| api := None; user_login := None; user_pass := None;
                user_token := None; user_feed := None;
                urls := Some ["https://github.com/a/b"] |};
     world := sample_world
                {[ "/home/octocat/.githubconfig" :=
                     sample_file token_and_pass_table;
                   "/home/octocat/.githubconfigurl" :=
                     sample_file (url_table ["https://github.com/c/d"]) ]}
                [] |}.


(** * Proofs *)

(** Unfolds the monad of the methods. *)
Ltac run :=
  unfold mbind, M_bind, mret, M_ret, bind, ret, raise, lift, try_except,
    get_world, get_self, put_world, put_self in *; simpl in *.

(** ** The string and path functions on samples *)

Example strip_ex : PyStr.strip "  [a, b]
 " = "[a, b]".
Proof. reflexivity. Qed.

Example replace_ex1 : PyStr.replace "aXbXXc" "X" "" = "abc".
Proof. reflexivity. Qed.

Example replace_ex2 : PyStr.replace "aaa" "aa" "b" = "ba".
Proof. reflexivity. Qed.

Example replace_ex3 : PyStr.replace "abc" "" "-" = "-a-b-c-".
Proof. reflexivity. Qed.

Example split_ex1 : PyStr.split "a, b, c" ", " = ["a"; "b"; "c"].
Proof. reflexivity. Qed.

Example split_ex2 : PyStr.split "" ", " = [""].
Proof. reflexivity. Qed.

Example split_ex3 : PyStr.split ", a, " ", " = [""; "a"; ""].
Proof. reflexivity. Qed.

Example str_of_list_ex :
  PyStr.str_of_list ["https://github.com/a/b"; "it's"] =
  "['https://github.com/a/b', " +:+ String PyStr.double_quote "it's"
  +:+ String PyStr.double_quote "]".
Proof. reflexivity. Qed.

Example normpath_ex1 : PosixPath.normpath "/home//user/./x/../y/" = "/home/user/y".
Proof. reflexivity. Qed.
Example normpath_ex2 : PosixPath.normpath "//a/../../b" = "//b".
Proof. reflexivity. Qed.
Example normpath_ex3 : PosixPath.normpath "a/../../b" = "../b".
Proof. reflexivity. Qed.
Example abspath_ex1 : PosixPath.abspath "/work/dir" "" = "/work/dir".
Proof. reflexivity. Qed.
Example abspath_ex2 : PosixPath.abspath "/work/dir" "rel/../x" = "/work/dir/x".
Proof. reflexivity. Qed.
Example join_ex : PosixPath.join "/home/u" ".githubconfig" = "/home/u/.githubconfig".
Proof. reflexivity. Qed.

(** ** Facts about the string and path functions *)


Lemma app_cons (c : ascii) (s t : string) : String c s +:+ t = String c (s +:+ t).
Proof. reflexivity. Qed.

Lemma app_empty_l (t : string) : "" +:+ t = t.
Proof. reflexivity. Qed.

Lemma app_empty_r (s : string) : s +:+ "" = s.
Proof. induction s as [|c s IH]; [done|]. by rewrite app_cons, IH. Qed.

Lemma app_assoc_s (s t u : string) : (s +:+ t) +:+ u = s +:+ (t +:+ u).
Proof. induction s as [|c s IH]; [done|]. by rewrite !app_cons, IH. Qed.

Lemma prefix_cons (a b : ascii) (p s : string) :
  String.prefix (String a p) (String b s)
  = if Ascii.eqb a b then String.prefix p s else false.
Proof.
  simpl. destruct (ascii_dec a b) as [->|Hne].
  - by rewrite Ascii.eqb_refl.
  - apply Ascii.eqb_neq in Hne. by rewrite Hne.
Qed.

Lemma prefix_empty (s : string) : String.prefix "" s = true.
Proof. by destruct s. Qed.

Lemma split_from_cons (sep : string) (c : ascii) (s : string) :
  PyStr.split_from sep 0 (String c s)
  = if String.prefix sep (String c s)
    then ("", (PyStr.split_from sep (String.length sep - 1) s).1
              :: (PyStr.split_from sep (String.length sep - 1) s).2)
    else (String c (PyStr.split_from sep 0 s).1, (PyStr.split_from sep 0 s).2).
Proof.
  cbn [PyStr.split_from].
  destruct (String.prefix sep (String c s));
    by destruct (PyStr.split_from _ _ s).
Qed.

Lemma split_from_char_snoc (c : ascii) (s : string) :
  PyStr.split_from (String c "") 0 (s +:+ String c "")
  = ((PyStr.split_from (String c "") 0 s).1,
     (PyStr.split_from (String c "") 0 s).2 ++ [""]).
Proof.
  induction s as [|d s IH].
  - rewrite app_empty_l, split_from_cons, prefix_cons, Ascii.eqb_refl. reflexivity.
  - rewrite app_cons, !split_from_cons, !prefix_cons, !prefix_empty.
    change (String.length (String c "") - 1) with 0.
    rewrite IH. by destruct (Ascii.eqb c d).
Qed.

Lemma split_char_snoc (c : ascii) (s : string) :
  PyStr.split (s +:+ String c "") (String c "")
  = PyStr.split s (String c "") ++ [""].
Proof.
  unfold PyStr.split. rewrite split_from_char_snoc.
  by destruct (PyStr.split_from _ _ s).
Qed.

Lemma nonempty_app (s t : string) :
  PyStr.nonempty (s +:+ t) = PyStr.nonempty s || PyStr.nonempty t.
Proof. by destruct s. Qed.

Lemma prefix_app_long (p s t : string) :
  String.length p <= String.length s ->
  String.prefix p (s +:+ t) = String.prefix p s.
Proof.
  revert s. induction p as [|a p IH]; intros s Hlen.
  - by rewrite !prefix_empty.
  - destruct s as [|b s]; [simpl in Hlen; lia|].
    rewrite app_cons, !prefix_cons. rewrite IH; [done|]. simpl in Hlen. lia.
Qed.

Lemma count_initial_slashes_snoc (cwd : string) :
  PyStr.nonempty cwd = true -> PosixPath.endswith_sep cwd = false ->
  PosixPath.count_initial_slashes (cwd +:+ "/")
  = PosixPath.count_initial_slashes cwd.
Proof.
  intros Hne Hend. unfold PosixPath.count_initial_slashes, PosixPath.sep.
  destruct cwd as [|c1 [|c2 [|c3 cwd]]]; [done|..].
  - simpl in Hend. rewrite app_cons, app_empty_l, !prefix_cons.
    by rewrite (Ascii.eqb_sym "/" c1), Hend.
  - change (PosixPath.endswith_sep (String c1 (String c2 "")))
      with (Ascii.eqb c2 "/") in Hend.
    rewrite !app_cons, app_empty_l, !prefix_cons, !prefix_empty.
    rewrite (Ascii.eqb_sym "/" c2), Hend.
    destruct (Ascii.eqb "/" c1); reflexivity.
  - rewrite !(prefix_app_long _ (String c1 (String c2 (String c3 cwd)))); [done|..];
      simpl; lia.
Qed.

Lemma normpath_step_empty (n : nat) (comps : list string) :
  PosixPath.normpath_step n comps "" = comps.
Proof. reflexivity. Qed.

Lemma normpath_snoc_sep (cwd : string) :
  PyStr.nonempty cwd = true -> PosixPath.endswith_sep cwd = false ->
  PosixPath.normpath (cwd +:+ "/") = PosixPath.normpath cwd.
Proof.
  intros Hne Hend. unfold PosixPath.normpath.
  rewrite nonempty_app, Hne. simpl.
  rewrite (count_initial_slashes_snoc cwd Hne Hend).
  unfold PosixPath.sep. rewrite split_char_snoc, foldl_snoc, normpath_step_empty.
  reflexivity.
Qed.

Lemma join_empty_r (cwd : string) :
  PosixPath.join cwd ""
  = if negb (PyStr.nonempty cwd) || PosixPath.endswith_sep cwd
    then cwd else cwd +:+ "/".
Proof.
  unfold PosixPath.join. simpl.
  destruct (negb (PyStr.nonempty cwd) || PosixPath.endswith_sep cwd); simpl.
  - apply app_empty_r.
  - unfold PosixPath.sep. by rewrite app_empty_r.
Qed.

Lemma abspath_empty (cwd : string) :
  PosixPath.abspath cwd "" = PosixPath.normpath cwd.
Proof.
  unfold PosixPath.abspath. simpl. rewrite join_empty_r.
  destruct (PyStr.nonempty cwd) eqn:Hne; simpl; [|done].
  destruct (PosixPath.endswith_sep cwd) eqn:Hend; [done|].
  by apply normpath_snoc_sep.
Qed.

(** C9. [get_github_config_path] returns for every file name, without
    raising and without touching the state: its value is
    [os.path.join(os.path.abspath(HOME), config_file_name)], [HOME] read as
    the empty string when it is not in the environment; and when [HOME] is
    unset or empty the directory is the normalised current working
    directory. *)
Theorem get_github_config_path_total (gh : GitHub3) (st : State gh)
    (config_file_name : string) :
  let w := world st in
  get_github_config_path config_file_name st
  = (Ok (PosixPath.join
           (PosixPath.abspath (cwd w) (default "" (environ w !! "HOME")))
           config_file_name), st)
  /\ (environ w !! "HOME" = None \/ environ w !! "HOME" = Some "" ->
      get_github_config_path config_file_name st
      = (Ok (PosixPath.join (PosixPath.normpath (cwd w)) config_file_name), st)).
Proof.
  intros w. split; [reflexivity|].
  intros H. unfold get_github_config_path. subst w.
  assert (default "" (environ (world st) !! "HOME") = "") as Hhome
    by (destruct H as [-> | ->]; reflexivity).
  unfold mbind, M_bind, bind, get_world, mret, M_ret, ret. simpl.
  by rewrite Hhome, abspath_empty.
Qed.

Lemma get_github_config_path_total_witness :
  environ (sample_world_no_home) !! "HOME" = None
  /\ get_github_config_path (gh := rejecting_github3) CONFIG
       {| self := fresh_config rejecting_github3; world := sample_world_no_home |}
     = (Ok "/work/.githubconfig",
        {| self := fresh_config rejecting_github3; world := sample_world_no_home |}).
Proof.
  split; [reflexivity|].
  apply (proj2 (get_github_config_path_total rejecting_github3
                  {| self := fresh_config rejecting_github3;
                     world := sample_world_no_home |} CONFIG)).
  left. reflexivity.
Defined.

(** * [authenticate], [request_two_factor_code] and [save_urls] *)

(** Reading a file into a fresh parser gives the table of the file. *)
Lemma read_table_new (table : RawConfigParser string) :
  read_table ConfigParser.new table = table.
Proof.
  destruct table as [d s]. unfold read_table; simpl. f_equal.
  - apply (right_id _ _).
  - apply (right_id _ _).
Qed.

Section Branches.
Context {gh : GitHub3}.

Lemma get_github_config_path_run (name : string) (st : State gh) :
  get_github_config_path name st =
  (Ok (PosixPath.join
         (PosixPath.abspath (cwd (world st))
            (default "" (environ (world st) !! "HOME"))) name), st).
Proof. reflexivity. Qed.

(** Without a credentials file that may be read and written, the run ends
    at the first reading of the local [user_login]. *)
Lemma authenticate_interactive (st : State gh) :
  no_credentials_file (world st) ->
  authenticate st
  = (Raise (UnboundLocalError "user_login"), with_user_login st "").
Proof.
  unfold no_credentials_file, credentials_path. intros H.
  unfold authenticate, get_github_config_path, isfile_and_access. run.
  destruct (fs (world st) !! _) as [f|] eqn:E.
  - rewrite H. reflexivity.
  - reflexivity.
Qed.
End Branches.

Section SavedBranch.
Context {gh : GitHub3}.

(** With such a file, the run is the saved-credentials branch. *)
Lemma authenticate_saved (st : State gh) (table : RawConfigParser string) :
  credentials_file (world st) table ->
  authenticate st = saved_credentials_run table st.
Proof.
  intros (f & Hf & Hr & Hw & Hd).
  unfold authenticate, get_github_config_path, isfile_and_access, open_read. run.
  unfold credentials_path in Hf. rewrite Hf, Hr, Hw. simpl.
  rewrite Hf. simpl. rewrite Hr. simpl. rewrite Hd. simpl.
  rewrite read_table_new.
  unfold saved_credentials_run, parser_get, read_feed. run.
  destruct (ConfigParser.get table CONFIG_SECTION CONFIG_USER_LOGIN) as [u|e]; [|reflexivity].
  simpl.
  destruct (ConfigParser.get table CONFIG_SECTION CONFIG_USER_TOKEN) as [t|e]; simpl.
  - unfold with_session, with_user_feed, with_user_login; simpl.
    destruct (ConfigParser.get table CONFIG_SECTION CONFIG_USER_FEED); reflexivity.
  - destruct e; try reflexivity. simpl.
    destruct (ConfigParser.get table CONFIG_SECTION CONFIG_USER_PASS); simpl; [|reflexivity].
    destruct (ConfigParser.get table CONFIG_SECTION CONFIG_USER_FEED); reflexivity.
Qed.
End SavedBranch.

Section Outcomes.
Context {gh : GitHub3}.

(** A file that is not a table of sections makes [readfp] raise. *)
Lemma authenticate_other_text (st : State gh) f text :
  fs (world st) !! credentials_path (world st) = Some f ->
  readable f = true -> writable f = true -> data f = OtherText text ->
  authenticate st = (Raise ParsingError, st).
Proof.
  intros Hf Hr Hw Hd.
  unfold authenticate, get_github_config_path, isfile_and_access, open_read. run.
  unfold credentials_path in Hf. rewrite Hf, Hr, Hw. simpl. rewrite Hf. simpl.
  rewrite Hr. simpl. rewrite Hd. reflexivity.
Qed.

Lemma world_cases (w : World) :
  no_credentials_file w
  \/ (exists table, credentials_file w table)
  \/ (exists f text, fs w !! credentials_path w = Some f /\ readable f = true
                     /\ writable f = true /\ data f = OtherText text).
Proof.
  unfold no_credentials_file, credentials_file.
  destruct (fs w !! credentials_path w) as [f|] eqn:Hf; [|by left].
  destruct (readable f) eqn:Hr; [|by left].
  destruct (writable f) eqn:Hw; [|by left].
  right. destruct (data f) as [table|text] eqn:Hd.
  - left. exists table, f. auto.
  - right. exists f, text. auto.
Qed.

Lemma calls_made_same (st st' : State gh) :
  api_calls (world st') = api_calls (world st) -> calls_made st st' = [].
Proof. unfold calls_made. intros ->. apply drop_all. Qed.

Lemma calls_made_app (st st' : State gh) new :
  api_calls (world st') = api_calls (world st) ++ new -> calls_made st st' = new.
Proof. unfold calls_made. intros ->. apply drop_app_length. Qed.

(** What a successful run of the saved-credentials branch leaves. *)
Lemma saved_credentials_ok (table : RawConfigParser string) (st st' : State gh) :
  saved_credentials_run table st = (Ok tt, st') ->
  exists username args feed,
    ConfigParser.get table CONFIG_SECTION CONFIG_USER_LOGIN = Ok username
    /\ ConfigParser.get table CONFIG_SECTION CONFIG_USER_FEED = Ok feed
    /\ ((exists tok, ConfigParser.get table CONFIG_SECTION CONFIG_USER_TOKEN = Ok tok
                     /\ args = token_login username tok)
        \/ (exists password,
              ConfigParser.get table CONFIG_SECTION CONFIG_USER_TOKEN
                = Raise (NoOptionError CONFIG_USER_TOKEN CONFIG_SECTION)
              /\ ConfigParser.get table CONFIG_SECTION CONFIG_USER_PASS = Ok password
              /\ args = password_login username password))
    /\ st' = with_user_feed (with_session (with_user_login st username) args) feed.
Proof.
  unfold saved_credentials_run, read_feed.
  destruct (ConfigParser.get table CONFIG_SECTION CONFIG_USER_LOGIN) as [u|e] eqn:Hu;
    [|discriminate].
  destruct (ConfigParser.get table CONFIG_SECTION CONFIG_USER_TOKEN) as [t|e] eqn:Ht.
  - destruct (ConfigParser.get table CONFIG_SECTION CONFIG_USER_FEED) as [fd|e] eqn:Hfd;
      [|discriminate].
    intros [= <-]. exists u, (token_login u t), fd. eauto 10.
  - destruct e; try discriminate.
    destruct (ConfigParser.get table CONFIG_SECTION CONFIG_USER_PASS) as [p|e] eqn:Hp;
      [|discriminate].
    destruct (ConfigParser.get table CONFIG_SECTION CONFIG_USER_FEED) as [fd|e] eqn:Hfd;
      [|discriminate].
    intros [= <-]. exists u, (password_login u p), fd.
    split; [done|]. split; [done|]. split; [|done]. right. exists p.
    split; [|done].
    revert Ht. unfold ConfigParser.get.
    destruct (sections table !! CONFIG_SECTION) as [sd|].
    + destruct (sd !! _); [discriminate|]. destruct (defaults table !! _); [discriminate|].
      intros [= <- <-]. reflexivity.
    + simpl. discriminate.
Qed.

Lemma authenticate_ok (st : State gh) :
  result authenticate st = Ok tt ->
  exists table, credentials_file (world st) table
    /\ saved_credentials_run table st = (Ok tt, final authenticate st).
Proof.
  unfold result, final. intros H.
  destruct (world_cases (world st)) as [Hn|[[table Ht]|(f & text & Hf & Hr & Hw & Hd)]].
  - rewrite (authenticate_interactive st Hn) in H. discriminate.
  - exists table. split; [done|]. rewrite (authenticate_saved st table Ht) in *.
    destruct (saved_credentials_run table st) as [[[]|e] st']; simpl in *; congruence.
  - rewrite (authenticate_other_text st f text Hf Hr Hw Hd) in H. discriminate.
Qed.

End Outcomes.

Lemma get_of_section {V} (table : RawConfigParser V) section option sectiondict v :
  sections table !! section = Some sectiondict ->
  optionxform option = option ->
  sectiondict !! option = Some v ->
  ConfigParser.get table section option = Ok v.
Proof. unfold ConfigParser.get. intros -> -> ->. reflexivity. Qed.

Lemma get_missing {V} (table : RawConfigParser V) section option e sectiondict :
  ConfigParser.get table section option = Raise e ->
  optionxform option = option ->
  sections table !! section = Some sectiondict ->
  sectiondict !! option = None /\ defaults table !! option = None.
Proof.
  intros H Hx Hs. unfold ConfigParser.get in H. rewrite Hs, Hx in H. revert H.
  destruct (sectiondict !! option); [discriminate|].
  destruct (defaults table !! option); [discriminate|]. done.
Qed.

(** C1, as stated, fails: a credentials file whose [user_login] is empty
    is loaded like any other, and [authenticate] returns with the empty
    login in [self.user_login]; no step of the method looks at what the
    stored values hold. *)
Lemma invariant_fails_on_empty_login :
  result authenticate empty_login_state = Ok tt
  /\ user_login (self (final authenticate empty_login_state)) = Some ""
  /\ ~ is_set (user_login (self (final authenticate empty_login_state)))
  /\ ~ credentials_invariant (self (final authenticate empty_login_state)).
Proof.
  assert (Hlogin : ~ is_set (user_login
                               (self (final authenticate empty_login_state)))).
  { intros (s & Hs & Hne). apply Hne. by injection Hs as <-. }
  split; [reflexivity|]. split; [reflexivity|]. split; [exact Hlogin|].
  intros [Hset _]. by apply Hlogin.
Qed.

(** C1, amended. Every run of [authenticate] that returns normally read
    the saved credentials: [user_login] is the stored value, empty or not;
    one call to [login] was made, for that login and with exactly one of
    token and password; and its session is kept in [api]. *)
Theorem authenticate_sets_login_and_session (gh : GitHub3) (st : State gh) :
  result authenticate st = Ok tt ->
  let st' := final authenticate st in
  exists table username args,
    credentials_file (world st) table
    /\ ConfigParser.get table CONFIG_SECTION CONFIG_USER_LOGIN = Ok username
    /\ user_login (self st') = Some username
    /\ calls_made st st' = [CallLogin args]
    /\ login_username args = Some username
    /\ one_credential args
    /\ api (self st') = Some (login gh args).
Proof.
  intros H st'. destruct (authenticate_ok st H) as (table & Hfile & Hrun).
  destruct (saved_credentials_ok table st _ Hrun)
    as (u & args & fd & Hu & Hfd & Hmode & Hst').
  exists table, u, args. subst st'. rewrite Hst'. simpl.
  split; [done|]. split; [done|]. split; [done|].
  split; [by apply calls_made_app|].
  destruct Hmode as [(t & _ & ->)|(p & _ & _ & ->)].
  - split; [done|]. split; [|done]. left. simpl. eauto.
  - split; [done|]. split; [|done]. right. simpl. eauto.
Qed.

Lemma authenticate_sets_login_and_session_witness :
  result authenticate token_and_pass_state = Ok tt
  /\ exists table username args,
    credentials_file (world token_and_pass_state) table
    /\ ConfigParser.get table CONFIG_SECTION CONFIG_USER_LOGIN = Ok username
    /\ user_login (self (final authenticate token_and_pass_state)) = Some username
    /\ calls_made token_and_pass_state (final authenticate token_and_pass_state)
       = [CallLogin args]
    /\ login_username args = Some username
    /\ one_credential args
    /\ api (self (final authenticate token_and_pass_state))
       = Some (login rejecting_github3 args).
Proof.
  split; [reflexivity|].
  apply (authenticate_sets_login_and_session rejecting_github3
           token_and_pass_state).
  reflexivity.
Defined.

(** C2, at the failing inputs: with no credentials file, and with one that
    may not be written, [authenticate] enters the interactive branch,
    assigns [self.user_login] and raises [UnboundLocalError] when it reads
    the local [user_login]. *)
Theorem authenticate_without_credentials_file_raises :
  no_credentials_file (world first_run_state)
  /\ authenticate first_run_state
     = (Raise (UnboundLocalError "user_login"),
        with_user_login first_run_state "")
  /\ no_credentials_file (world read_only_state)
  /\ result authenticate read_only_state
     = Raise (UnboundLocalError "user_login").
Proof.
  split; [exact I|]. split; [apply authenticate_interactive; exact I|].
  assert (H : no_credentials_file (world read_only_state)) by reflexivity.
  split; [exact H|].
  unfold result. by rewrite (authenticate_interactive read_only_state H).
Qed.

Lemma read_feed_keeps_session {gh : GitHub3} (table : RawConfigParser string)
    (st0 st : State gh) (args : LoginArgs) :
  api_calls (world st) = api_calls (world st0) ->
  let st' := snd (read_feed table (with_session st args)) in
  calls_made st0 st' = [CallLogin args]
  /\ api (self st') = Some (login gh args).
Proof.
  intros Hc. unfold read_feed.
  destruct (ConfigParser.get table CONFIG_SECTION CONFIG_USER_FEED); simpl;
    (split; [apply calls_made_app; simpl; by rewrite Hc|done]).
Qed.

Lemma token_login_when_both_present {gh : GitHub3} (st : State gh)
    (table : RawConfigParser string) (options : gmap string string)
    (tok password : string) :
  credentials_file (world st) table ->
  sections table !! CONFIG_SECTION = Some options ->
  options !! CONFIG_USER_TOKEN = Some tok ->
  options !! CONFIG_USER_PASS = Some password ->
  let st' := final authenticate st in
  (forall args, CallLogin args ∈ calls_made st st' ->
                login_token args = Some tok /\ login_password args = None)
  /\ (forall username,
        ConfigParser.get table CONFIG_SECTION CONFIG_USER_LOGIN = Ok username ->
        calls_made st st' = [CallLogin (token_login username tok)]
        /\ api (self st') = Some (login gh (token_login username tok))).
Proof.
  intros Hfile Hsec Htok Hpass st'. subst st'. unfold final.
  rewrite (authenticate_saved st table Hfile).
  unfold saved_credentials_run.
  rewrite (get_of_section table CONFIG_SECTION CONFIG_USER_TOKEN options tok Hsec eq_refl Htok).
  destruct (ConfigParser.get table CONFIG_SECTION CONFIG_USER_LOGIN) as [u|e] eqn:Hu.
  - destruct (read_feed_keeps_session table st (with_user_login st u)
                (token_login u tok) eq_refl) as [Hc Ha].
    split.
    + intros args. rewrite Hc. intros [= ->]%list_elem_of_singleton. done.
    + intros u' [= ->]. done.
  - simpl. rewrite (calls_made_same st st eq_refl). split.
    + intros args []%elem_of_nil.
    + intros u' [=].
Qed.

Lemma password_login_only_without_token {gh : GitHub3} (st : State gh)
    (table : RawConfigParser string) (args : LoginArgs) :
  credentials_file (world st) table ->
  CallLogin args ∈ calls_made st (final authenticate st) ->
  is_Some (login_password args) ->
  ConfigParser.get table CONFIG_SECTION CONFIG_USER_TOKEN
    = Raise (NoOptionError CONFIG_USER_TOKEN CONFIG_SECTION)
  /\ forall options, sections table !! CONFIG_SECTION = Some options ->
                     options !! CONFIG_USER_TOKEN = None
                     /\ defaults table !! CONFIG_USER_TOKEN = None.
Proof.
  intros Hfile. unfold final. rewrite (authenticate_saved st table Hfile).
  unfold saved_credentials_run.
  destruct (ConfigParser.get table CONFIG_SECTION CONFIG_USER_LOGIN) as [u|e] eqn:Hu.
  2:{ simpl. rewrite (calls_made_same st st eq_refl). by intros []%elem_of_nil. }
  destruct (ConfigParser.get table CONFIG_SECTION CONFIG_USER_TOKEN) as [t|e] eqn:Ht.
  { destruct (read_feed_keeps_session table st (with_user_login st u)
                (token_login u t) eq_refl) as [-> _].
    intros [= ->]%list_elem_of_singleton [? [=]]. }
  assert (Hnone : calls_made st (with_user_login st u) = [])
    by (by apply calls_made_same).
  destruct e; simpl; try (rewrite Hnone; by intros []%elem_of_nil).
  intros _ _. split.
  - revert Ht. unfold ConfigParser.get.
    destruct (sections table !! CONFIG_SECTION) as [sd|].
    + destruct (sd !! _); [discriminate|]. destruct (defaults table !! _); [discriminate|].
      intros [= <- <-]. reflexivity.
    + simpl. discriminate.
  - intros options Hopt. by apply (get_missing table CONFIG_SECTION _ _ options Ht).
Qed.

(** C3. When the [github] section of the credentials file holds both
    [user_token] and [user_pass], every call to [login] made by
    [authenticate] carries the token and no password, and with a
    [user_login] to be read that call is made and its session kept.
    A call to [login] that carries a password is made only when
    [user_token] is in neither the section nor the defaults. *)
Theorem token_takes_priority_over_pass (gh : GitHub3) (st : State gh)
    (table : RawConfigParser string) :
  credentials_file (world st) table ->
  let st' := final authenticate st in
  (forall options tok password,
     sections table !! CONFIG_SECTION = Some options ->
     options !! CONFIG_USER_TOKEN = Some tok ->
     options !! CONFIG_USER_PASS = Some password ->
     (forall args, CallLogin args ∈ calls_made st st' ->
                   login_token args = Some tok /\ login_password args = None)
     /\ (forall username,
           ConfigParser.get table CONFIG_SECTION CONFIG_USER_LOGIN = Ok username ->
           calls_made st st' = [CallLogin (token_login username tok)]
           /\ api (self st') = Some (login gh (token_login username tok))))
  /\ (forall args,
        CallLogin args ∈ calls_made st st' ->
        is_Some (login_password args) ->
        ConfigParser.get table CONFIG_SECTION CONFIG_USER_TOKEN
          = Raise (NoOptionError CONFIG_USER_TOKEN CONFIG_SECTION)
        /\ forall options, sections table !! CONFIG_SECTION = Some options ->
                           options !! CONFIG_USER_TOKEN = None
                           /\ defaults table !! CONFIG_USER_TOKEN = None).
Proof.
  intros Hfile st'. split.
  - intros options tok password.
    apply (token_login_when_both_present st table options tok password Hfile).
  - intros args. apply (password_login_only_without_token st table args Hfile).
Qed.

Lemma token_takes_priority_over_pass_witness :
  credentials_file (world token_and_pass_state) token_and_pass_table
  /\ calls_made token_and_pass_state (final authenticate token_and_pass_state)
     = [CallLogin (token_login "octocat" "t0k3n")]
  /\ api (self (final authenticate token_and_pass_state))
     = Some (token_login "octocat" "t0k3n").
Proof.
  assert (Hfile : credentials_file (world token_and_pass_state)
                    token_and_pass_table).
  { exists (sample_file token_and_pass_table). repeat split; reflexivity. }
  split; [exact Hfile|].
  refine (proj2 (proj1 (token_takes_priority_over_pass rejecting_github3
                          token_and_pass_state token_and_pass_table Hfile)
                   (list_to_map [("user_login", "octocat"); ("user_token", "t0k3n");
                                 ("user_pass", "hunter2"); ("user_feed", "https://feed")])
                   "t0k3n" "hunter2" _ _ _) "octocat" _); reflexivity.
Defined.

(** C4, as stated, fails: the session is built from the token, and
    [user_feed] is read from the file and assigned all the same. *)
Lemma feed_read_in_token_mode :
  result authenticate token_and_pass_state = Ok tt
  /\ calls_made token_and_pass_state (final authenticate token_and_pass_state)
     = [CallLogin (token_login "octocat" "t0k3n")]
  /\ user_feed (self token_and_pass_state) = None
  /\ user_feed (self (final authenticate token_and_pass_state))
     = Some "https://feed".
Proof. repeat split; reflexivity. Qed.

(** C4, amended. Every run of [authenticate] that returns normally has
    read [user_feed] from the file and assigned it to [self.user_feed],
    whether [login] was given the token or the password. *)
Theorem feed_read_in_both_modes (gh : GitHub3) (st : State gh) :
  result authenticate st = Ok tt ->
  let st' := final authenticate st in
  exists table args feed,
    credentials_file (world st) table
    /\ calls_made st st' = [CallLogin args]
    /\ one_credential args
    /\ ConfigParser.get table CONFIG_SECTION CONFIG_USER_FEED = Ok feed
    /\ user_feed (self st') = Some feed.
Proof.
  intros H st'. destruct (authenticate_ok st H) as (table & Hfile & Hrun).
  destruct (saved_credentials_ok table st _ Hrun)
    as (u & args & fd & Hu & Hfd & Hmode & Hst').
  exists table, args, fd. subst st'. rewrite Hst'. simpl.
  repeat split; try done.
  - by apply calls_made_app.
  - destruct Hmode as [(t & _ & ->)|(p & _ & _ & ->)]; [left|right]; simpl; eauto.
Qed.

Lemma feed_read_in_both_modes_witness :
  result authenticate pass_only_state = Ok tt
  /\ exists table args feed,
    credentials_file (world pass_only_state) table
    /\ calls_made pass_only_state (final authenticate pass_only_state)
       = [CallLogin args]
    /\ one_credential args
    /\ ConfigParser.get table CONFIG_SECTION CONFIG_USER_FEED = Ok feed
    /\ user_feed (self (final authenticate pass_only_state)) = Some feed.
Proof.
  split; [reflexivity|].
  apply (feed_read_in_both_modes rejecting_github3 pass_only_state).
  reflexivity.
Defined.

(** C5, at the failing input: no credentials file, a user ready to type,
    and a remote side that rejects the authorization. [authenticate]
    raises [UnboundLocalError] before any prompt: [authorize] is not
    called and nothing is printed; the files are as they were. *)
Theorem rejected_authorization_not_reached :
  authorize rejecting_github3
    {| authorize_login := "octocat"; authorize_password := "hunter2";
       authorize_scopes := ["user"; "repo"; "gist"];
       authorize_note := "githubcli";
       authorize_note_url := "https://github.com/donnemartin/github-cli" |}
    = Raise UnprocessableEntity
  /\ result authenticate first_run_state
     = Raise (UnboundLocalError "user_login")
  /\ stdout (world (final authenticate first_run_state)) = []
  /\ api_calls (world (final authenticate first_run_state)) = []
  /\ fs (world (final authenticate first_run_state)) = fs (world first_run_state).
Proof.
  split; [reflexivity|].
  unfold result, final.
  rewrite (authenticate_interactive first_run_state I). done.
Qed.

Lemma while_not_read_first_nonempty (prompt : string) (pre : list string)
    (x : string) (post out : list string) :
  Forall (eq "") pre -> x <> "" ->
  while_not_read "input" prompt "" (pre ++ x :: post) out
  = (Ok x, (post, out ++ replicate (S (length pre)) prompt)).
Proof.
  intros Hpre Hx. revert out. induction Hpre as [|e pre <- _ IH]; intros out.
  - simpl. destruct x; [done|]. destruct post; reflexivity.
  - simpl. simpl in IH. rewrite IH. by rewrite <- app_assoc.
Qed.

(** X7. [request_two_factor_code] returns the first line that is not
    empty: it reads the empty lines before it and that line, no further,
    and shows its prompt once for each line read. *)
Lemma request_two_factor_code_first_nonempty {gh : GitHub3} (st : State gh)
    (pre : list string) (x : string) (post : list string) :
  stdin (world st) = pre ++ x :: post ->
  Forall (eq "") pre -> x <> "" ->
  request_two_factor_code st
  = (Ok x,
     {| self := self st;
        world := with_terminal (world st) post
                   (stdout (world st)
                    ++ replicate (S (length pre)) "Enter 2FA code: ") |}).
Proof.
  intros Hin Hpre Hx. unfold request_two_factor_code, while_not. run.
  rewrite Hin, (while_not_read_first_nonempty _ pre x post _ Hpre Hx).
  reflexivity.
Qed.

(** C8, at the failing input: the login prompt is never shown and no line
    is read, [authenticate] raising [UnboundLocalError] first; on the same
    input [request_two_factor_code] skips the empty line and returns the
    first non-empty one. *)
Theorem prompts_for_login_not_reached :
  authenticate hesitant_state
  = (Raise (UnboundLocalError "user_login"), with_user_login hesitant_state "")
  /\ stdin (world (final authenticate hesitant_state))
     = [""; "octocat"; ""; "hunter2"]
  /\ stdout (world (final authenticate hesitant_state)) = []
  /\ result request_two_factor_code hesitant_state = Ok "octocat"
  /\ stdin (world (final request_two_factor_code hesitant_state))
     = [""; "hunter2"].
Proof.
  split; [apply authenticate_interactive; exact I|]. repeat split; reflexivity.
Qed.

Lemma url_parser_add_section :
  add_section (V := list string) new CONFIG_URL_SECTION
  = Ok {| defaults := ∅; sections := {[ CONFIG_URL_SECTION := ∅ ]} |}.
Proof. reflexivity. Qed.

Lemma url_parser_set (l : list string) :
  ConfigParser.set {| defaults := ∅; sections := {[ CONFIG_URL_SECTION := ∅ ]} |}
    CONFIG_URL_SECTION CONFIG_URL_LIST l
  = Ok {| defaults := ∅;
          sections := {[ CONFIG_URL_SECTION := {[ CONFIG_URL_LIST := l ]} ]} |}.
Proof. reflexivity. Qed.

Lemma url_parser_write (l : list string) :
  ConfigParser.write PyStr.str_of_list
    {| defaults := ∅;
       sections := {[ CONFIG_URL_SECTION := {[ CONFIG_URL_LIST := l ]} ]} |}
  = url_table l.
Proof. reflexivity. Qed.

Lemma save_list_run {gh : GitHub3} (l : list string) (st : State gh) :
  save_list l st
  = let w := world st in
    let st1 := {| self := {| api := api (self st); user_login := user_login (self st);
                             user_pass := user_pass (self st);
                             user_token := user_token (self st);
                             user_feed := user_feed (self st); urls := Some l |};
                  world := w |} in
    match fs w !! urls_path w with
    | Some f =>
        if readable f && writable f
        then (Ok tt, {| self := self st1;
                        world := with_fs w (<[urls_path w :=
                                   written_file (Some f) (url_table l)]> (fs w)) |})
        else (Raise (PermissionError (urls_path w)), st1)
    | None =>
        (Ok tt, {| self := self st1;
                   world := with_fs w (<[urls_path w :=
                              written_file None (url_table l)]> (fs w)) |})
    end.
Proof.
  unfold save_list, save_urls, assign_urls, get_github_config_path, read_urls,
    parser_add_section, parser_set, open_write. run.
  rewrite url_parser_add_section. simpl.
  rewrite url_parser_set. simpl. rewrite url_parser_write.
  unfold urls_path.
  destruct (fs (world st) !! _) as [f|]; [destruct (readable f && writable f)|];
    reflexivity.
Qed.

(** C7. Saving the list [a] and then the list [b] leaves the same state,
    and gives the same outcome, as saving [b] alone; after a successful
    save the url file holds the one section and the one option written
    for [b], from which [str(b)] is read back. *)
Theorem save_urls_last_write_wins (gh : GitHub3) (st : State gh)
    (a b : list string) :
  let st_a := final (save_list a) st in
  let st_ab := final (save_list b) st_a in
  let st_b := final (save_list b) st in
  st_ab = st_b
  /\ result (save_list b) st_a = result (save_list b) st
  /\ (result (save_list b) st = Ok tt ->
      exists f, fs (world st_b) !! urls_path (world st) = Some f
                /\ data f = IniText (url_table b)
                /\ ConfigParser.get (url_table b) CONFIG_URL_SECTION CONFIG_URL_LIST
                   = Ok (PyStr.str_of_list b)).
Proof.
  intros st_a st_ab st_b. subst st_a st_ab st_b. unfold final, result.
  rewrite !save_list_run. simpl.
  destruct (fs (world st) !! urls_path (world st)) as [f|] eqn:Hf.
  - destruct (readable f && writable f) eqn:Hrw; simpl.
    + unfold urls_path in *. simpl. rewrite lookup_insert_eq. simpl.
      rewrite Hrw. simpl. unfold with_fs. simpl. rewrite insert_insert_eq.
      split; [done|]. split; [done|]. intros _.
      eexists. rewrite lookup_insert_eq. split; [done|]. split; reflexivity.
    + unfold urls_path in *. simpl. rewrite Hf, Hrw. simpl.
      split; [done|]. split; [done|]. discriminate.
  - unfold urls_path in *. simpl. rewrite lookup_insert_eq. simpl.
    unfold with_fs. simpl. rewrite insert_insert_eq.
    split; [done|]. split; [done|]. intros _.
    eexists. rewrite lookup_insert_eq. split; [done|]. split; reflexivity.
Qed.

Lemma save_urls_last_write_wins_witness :
  result (save_list ["https://github.com/c/d"])
    (sample_state rejecting_github3 ∅ []) = Ok tt
  /\ final (save_list ["https://github.com/c/d"])
       (final (save_list ["https://github.com/a/b"; "https://github.com/x/y"])
          (sample_state rejecting_github3 ∅ []))
     = final (save_list ["https://github.com/c/d"])
         (sample_state rejecting_github3 ∅ [])
  /\ exists f,
       fs (world (final (save_list ["https://github.com/c/d"])
                    (sample_state rejecting_github3 ∅ [])))
         !! "/home/octocat/.githubconfigurl" = Some f
       /\ data f = IniText (url_table ["https://github.com/c/d"])
       /\ ConfigParser.get (url_table ["https://github.com/c/d"])
            CONFIG_URL_SECTION CONFIG_URL_LIST
          = Ok "['https://github.com/c/d']".
Proof.
  split; [reflexivity|].
  pose proof (save_urls_last_write_wins rejecting_github3
                (sample_state rejecting_github3 ∅ [])
                ["https://github.com/a/b"; "https://github.com/x/y"]
                ["https://github.com/c/d"]) as (H1 & _ & H3).
  split; [exact H1|]. apply H3. reflexivity.
Defined.

(** * Url lists *)

(** ** Scanning for a substring *)

Lemma length_app (s t : string) :
  String.length (s +:+ t) = String.length s + String.length t.
Proof. induction s as [|c s IH]; [done|]. rewrite app_cons. simpl. by rewrite IH. Qed.

Lemma string_drop_0 (s : string) : string_drop 0 s = s.
Proof. by destruct s. Qed.

Lemma string_drop_app (s t : string) : string_drop (String.length s) (s +:+ t) = t.
Proof.
  induction s as [|c s IH]; [by rewrite app_empty_l, string_drop_0|].
  rewrite app_cons. simpl. apply IH.
Qed.

Lemma prefix_length (p s : string) :
  String.prefix p s = true -> String.length p <= String.length s.
Proof.
  revert s. induction p as [|a p IH]; intros s H; [simpl; lia|].
  destruct s as [|b s]; [done|]. rewrite prefix_cons in H.
  destruct (Ascii.eqb a b); [|done]. apply IH in H. simpl. lia.
Qed.

Lemma prefix_app_drop (p s : string) :
  String.prefix p s = true -> s = p +:+ string_drop (String.length p) s.
Proof.
  revert s. induction p as [|a p IH]; intros s H.
  - by rewrite app_empty_l, string_drop_0.
  - destruct s as [|b s]; [done|]. rewrite prefix_cons in H.
    destruct (Ascii.eqb a b) eqn:Hab; [|done]. apply Ascii.eqb_eq in Hab as ->.
    rewrite app_cons. simpl. f_equal. by apply IH.
Qed.

Lemma prefix_app_self (p s : string) : String.prefix p (p +:+ s) = true.
Proof.
  induction p as [|a p IH]; [apply prefix_empty|].
  by rewrite app_cons, prefix_cons, Ascii.eqb_refl.
Qed.

(** A match of [p] at the head of [t +:+ u] lies in [t], or starts in [t]
    and ends in [u]. *)
Lemma prefix_app_split (p t u : string) :
  String.prefix p (t +:+ u) = true ->
  String.prefix p t = true
  \/ (String.length t < String.length p
      /\ String.prefix (string_drop (String.length t) p) u = true).
Proof.
  revert p. induction t as [|b t IH]; intros p H.
  - destruct p as [|a p]; [by left|]. right. rewrite app_empty_l in H.
    split; [simpl; lia|]. by rewrite string_drop_0.
  - destruct p as [|a p]; [by left|].
    rewrite app_cons, prefix_cons in H. rewrite prefix_cons.
    destruct (Ascii.eqb a b); [|done].
    destruct (IH p H) as [Hl|[Hlen Hr]]; [by left|].
    right. split; [simpl; lia|]. exact Hr.
Qed.

Lemma prefix_before (p t u : string) :
  no_straddle p u -> t <> "" ->
  String.prefix p (t +:+ u) = String.prefix p t.
Proof.
  intros Hu Ht. destruct (String.prefix p t) eqn:Hpt.
  - rewrite prefix_app_long; [done|]. by apply prefix_length.
  - destruct (String.prefix p (t +:+ u)) eqn:Hptu; [|done].
    destruct (prefix_app_split p t u Hptu) as [Hl|[Hlen Hr]]; [congruence|].
    rewrite Hu in Hr; [done| |done].
    destruct t; [done|]. simpl. lia.
Qed.

Lemma has_sub_cons (p : string) (c : ascii) (s : string) :
  has_sub p (String c s) = String.prefix p (String c s) || has_sub p s.
Proof. reflexivity. Qed.

Lemma replace_from_cons (old new : string) (c : ascii) (s : string) :
  PyStr.replace_from old new 0 (String c s)
  = if String.prefix old (String c s)
    then new +:+ PyStr.replace_from old new (String.length old - 1) s
    else String c (PyStr.replace_from old new 0 s).
Proof. reflexivity. Qed.

Lemma replace_from_skip (old new s t : string) :
  PyStr.replace_from old new (String.length s) (s +:+ t)
  = PyStr.replace_from old new 0 t.
Proof.
  induction s as [|c s IH]; [by rewrite app_empty_l|].
  rewrite app_cons. simpl. apply IH.
Qed.

Lemma replace_from_skip_all (old new s : string) (k : nat) :
  String.length s <= k -> PyStr.replace_from old new k s = "".
Proof.
  revert k. induction s as [|c s IH]; intros k Hk; [done|].
  destruct k; simpl in *; [lia|]. apply IH. lia.
Qed.

(** The text before [u] holds no match: the scan hands it on. *)
Lemma replace_from_before (old new e u : string) :
  has_sub old e = false -> no_straddle old u ->
  PyStr.replace_from old new 0 (e +:+ u)
  = e +:+ PyStr.replace_from old new 0 u.
Proof.
  intros He Hu. induction e as [|c e IH]; [by rewrite !app_empty_l|].
  rewrite has_sub_cons in He. apply orb_false_elim in He as [Hp He].
  rewrite app_cons, replace_from_cons, <- app_cons.
  rewrite (prefix_before old (String c e) u Hu); [|done].
  rewrite Hp, !app_cons, IH; done.
Qed.

Lemma no_straddle_empty (p : string) : p <> "" -> no_straddle p "".
Proof.
  intros Hp k Hk1 Hk2.
  assert (string_drop k p <> "") as Hne.
  { revert k Hk1 Hk2. clear Hp. induction p as [|a p IH]; intros k Hk1 Hk2.
    - simpl in Hk2. lia.
    - destruct k; [lia|]. simpl. destruct k.
      + rewrite string_drop_0. destruct p; [simpl in Hk2; lia|done].
      + apply IH; simpl in *; lia. }
  by destruct (string_drop k p).
Qed.

Lemma replace_from_none (old new e : string) :
  old <> "" -> has_sub old e = false -> PyStr.replace_from old new 0 e = e.
Proof.
  intros Hold He.
  pose proof (replace_from_before old new e "" He (no_straddle_empty old Hold)) as H.
  by rewrite !app_empty_r in H.
Qed.

(** ** Deleting a character *)

Lemma replace_char (s : string) (c : ascii) :
  PyStr.replace s (String c "") "" = remove_char c s.
Proof.
  unfold PyStr.replace. induction s as [|d s IH]; [done|].
  rewrite replace_from_cons, prefix_cons, prefix_empty. simpl.
  rewrite app_empty_l, IH. by destruct (Ascii.eqb c d).
Qed.

Lemma remove_char_app (c : ascii) (s t : string) :
  remove_char c (s +:+ t) = remove_char c s +:+ remove_char c t.
Proof.
  induction s as [|d s IH]; [done|]. rewrite app_cons. simpl.
  destruct (Ascii.eqb c d); by rewrite IH.
Qed.

Lemma remove_char_absent (c : ascii) (s : string) :
  PyStr.contains_char c s = false -> remove_char c s = s.
Proof.
  induction s as [|d s IH]; [done|]. simpl.
  destruct (Ascii.eqb c d); [done|]. intros H. by rewrite IH.
Qed.

Lemma contains_char_remove (c : ascii) (s : string) :
  PyStr.contains_char c (remove_char c s) = false.
Proof.
  induction s as [|d s IH]; [done|]. simpl.
  destruct (Ascii.eqb c d) eqn:Hcd; [done|]. simpl. by rewrite Hcd.
Qed.

Lemma contains_char_app (c : ascii) (s t : string) :
  PyStr.contains_char c (s +:+ t)
  = PyStr.contains_char c s || PyStr.contains_char c t.
Proof.
  induction s as [|d s IH]; [done|]. rewrite app_cons. simpl.
  by destruct (Ascii.eqb c d).
Qed.

Lemma contains_char_remove_other (c d : ascii) (s : string) :
  PyStr.contains_char c s = false ->
  PyStr.contains_char c (remove_char d s) = false.
Proof.
  induction s as [|x s IH]; [done|]. simpl.
  destruct (Ascii.eqb c x) eqn:Hcx; [done|]. intros H.
  destruct (Ascii.eqb d x); simpl; [|rewrite Hcx]; by apply IH.
Qed.

(** A replacement by the empty string only deletes. *)
Lemma contains_char_replace_from (c : ascii) (old : string) (k : nat) (s : string) :
  PyStr.contains_char c s = false ->
  PyStr.contains_char c (PyStr.replace_from old "" k s) = false.
Proof.
  revert k. induction s as [|x s IH]; intros k H; [done|].
  simpl in H. destruct (Ascii.eqb c x) eqn:Hcx; [done|].
  destruct k as [|k]; [|simpl; by apply IH].
  rewrite replace_from_cons. destruct (String.prefix old (String x s)).
  - rewrite app_empty_l. by apply IH.
  - simpl. rewrite Hcx. by apply IH.
Qed.

(** ** Splitting and joining *)

Lemma join_cons (sep x : string) (l : list string) :
  PyStr.join sep (x :: l)
  = match l with [] => x | _ => x +:+ sep +:+ PyStr.join sep l end.
Proof. reflexivity. Qed.

Lemma join_cons_char (sep : string) (c : ascii) (x : string) (l : list string) :
  PyStr.join sep (String c x :: l) = String c (PyStr.join sep (x :: l)).
Proof. rewrite !join_cons. by destruct l. Qed.

Lemma split_from_skip (sep s t : string) :
  PyStr.split_from sep (String.length s) (s +:+ t) = PyStr.split_from sep 0 t.
Proof.
  induction s as [|c s IH]; [by rewrite app_empty_l|].
  rewrite app_cons. simpl. apply IH.
Qed.

(** Joining the fields of a split gives the string back. *)
Lemma join_split_from (sep s : string) (k : nat) :
  sep <> "" -> k <= String.length s ->
  PyStr.join sep ((PyStr.split_from sep k s).1 :: (PyStr.split_from sep k s).2)
  = string_drop k s.
Proof.
  intros Hsep. revert k. induction s as [|c s IH]; intros k Hk.
  - simpl in Hk. by replace k with 0 by lia.
  - destruct k as [|k]; [|simpl in *; apply IH; lia].
    rewrite split_from_cons, string_drop_0.
    destruct (String.prefix sep (String c s)) eqn:Hp.
    + destruct sep as [|a sep]; [done|].
      pose proof (prefix_length _ _ Hp) as Hlen.
      pose proof (prefix_app_drop _ _ Hp) as Hs.
      simpl String.length in *.
      replace (S (String.length sep) - 1) with (String.length sep) by lia.
      cbn [fst snd]. rewrite join_cons, app_empty_l, IH by lia.
      rewrite Hs at 1. reflexivity.
    + cbn [fst snd]. rewrite join_cons_char. f_equal.
      rewrite IH by lia. apply string_drop_0.
Qed.

Lemma join_split (sep s : string) :
  sep <> "" -> PyStr.join sep (PyStr.split s sep) = s.
Proof.
  intros Hsep. unfold PyStr.split.
  pose proof (join_split_from sep s 0 Hsep ltac:(lia)) as H.
  rewrite string_drop_0 in H. by destruct (PyStr.split_from sep 0 s).
Qed.

Lemma contains_char_join (c : ascii) (sep e : string) (l : list string) :
  e ∈ l -> PyStr.contains_char c e = true ->
  PyStr.contains_char c (PyStr.join sep l) = true.
Proof.
  intros Hin He. induction l as [|x l IH]; [by apply elem_of_nil in Hin|].
  rewrite join_cons. apply elem_of_cons in Hin as [->|Hin].
  - destruct l; [done|]. by rewrite contains_char_app, He.
  - destruct l as [|y l]; [by apply elem_of_nil in Hin|].
    rewrite !contains_char_app, IH; [|done]. by rewrite !orb_true_r.
Qed.

(** The fields of a split hold only characters of the string. *)
Lemma contains_char_split (c : ascii) (s sep e : string) :
  sep <> "" -> PyStr.contains_char c s = false -> e ∈ PyStr.split s sep ->
  PyStr.contains_char c e = false.
Proof.
  intros Hsep Hs Hin. destruct (PyStr.contains_char c e) eqn:He; [|done].
  pose proof (contains_char_join c sep e _ Hin He) as H.
  rewrite join_split in H; congruence.
Qed.

(** The text before [u] holds no separator: it is the head of the first
    field. *)
Lemma split_from_before (sep e u : string) :
  has_sub sep e = false -> no_straddle sep u ->
  PyStr.split_from sep 0 (e +:+ u)
  = (e +:+ (PyStr.split_from sep 0 u).1, (PyStr.split_from sep 0 u).2).
Proof.
  intros He Hu. induction e as [|c e IH].
  - rewrite !app_empty_l. by destruct (PyStr.split_from sep 0 u).
  - rewrite has_sub_cons in He. apply orb_false_elim in He as [Hp He].
    rewrite app_cons, split_from_cons, <- app_cons.
    rewrite (prefix_before sep (String c e) u Hu); [|done].
    rewrite Hp, IH; [|done]. cbn [fst snd]. by rewrite app_cons.
Qed.

(** ** A pattern that cannot overlap itself *)

Lemma replace_from_match (p new b : string) :
  p <> "" ->
  PyStr.replace_from p new 0 (p +:+ b) = new +:+ PyStr.replace_from p new 0 b.
Proof.
  intros Hp. destruct p as [|x p]; [done|].
  rewrite app_cons, replace_from_cons, <- app_cons, prefix_app_self.
  replace (String.length (String x p) - 1) with (String.length p)
    by (simpl; lia).
  by rewrite replace_from_skip.
Qed.

(** Every match is replaced, wherever it stands. *)
Lemma replace_from_around (p new a b : string) (k : nat) :
  p <> "" -> (forall u, no_straddle p (p +:+ u)) ->
  k <= String.length a ->
  PyStr.replace_from p new k (a +:+ p +:+ b)
  = PyStr.replace_from p new k a +:+ new +:+ PyStr.replace_from p new 0 b.
Proof.
  intros Hp Hself. revert k. induction a as [|c a IH]; intros k Hk.
  - simpl in Hk. replace k with 0 by lia. rewrite !app_empty_l.
    by apply replace_from_match.
  - destruct k as [|k]; [|rewrite app_cons; simpl in *; apply IH; lia].
    rewrite app_cons, !replace_from_cons, <- app_cons.
    rewrite (prefix_before p (String c a) (p +:+ b) (Hself b)); [|done].
    destruct (String.prefix p (String c a)) eqn:Hpa.
    + apply prefix_length in Hpa. destruct p as [|x p]; [done|].
      replace (String.length (String x p) - 1) with (String.length p)
        by (simpl; lia).
      simpl String.length in Hpa. rewrite IH by lia. by rewrite app_assoc_s.
    + rewrite IH by lia. by rewrite app_cons.
Qed.

Lemma github_url_no_overlap (u : string) :
  no_straddle GITHUB_URL (GITHUB_URL +:+ u).
Proof.
  intros k Hk1 Hk2. change (String.length GITHUB_URL) with 19 in Hk2.
  do 19 (destruct k as [|k]; [first [lia|reflexivity]|]). lia.
Qed.

Lemma separator_no_overlap (u : string) : no_straddle ", " (", " +:+ u).
Proof.
  intros k Hk1 Hk2. change (String.length ", ") with 2 in Hk2.
  do 2 (destruct k as [|k]; [first [lia|reflexivity]|]). lia.
Qed.

Lemma replace_github_url_anywhere (a b : string) :
  PyStr.replace (a +:+ GITHUB_URL +:+ b) GITHUB_URL ""
  = PyStr.replace a GITHUB_URL "" +:+ PyStr.replace b GITHUB_URL "".
Proof.
  change (PyStr.replace_from GITHUB_URL "" 0 (a +:+ GITHUB_URL +:+ b)
          = PyStr.replace_from GITHUB_URL "" 0 a
            +:+ "" +:+ PyStr.replace_from GITHUB_URL "" 0 b).
  apply replace_from_around; [done|apply github_url_no_overlap|lia].
Qed.

(** ** What [clean_urls] computes *)

Lemma clean_urls_true (raw : string) :
  clean_urls true raw
  = PyStr.split
      (remove_char "'" (remove_char "]" (remove_char "[" (PyStr.strip raw))))
      ", ".
Proof.
  unfold clean_urls. cbn [foldl negb]. by rewrite !replace_char.
Qed.

Lemma clean_urls_false (raw : string) :
  clean_urls false raw
  = PyStr.split
      (PyStr.replace
         (remove_char "'"
            (PyStr.replace
               (remove_char "]"
                  (PyStr.replace (remove_char "[" (PyStr.strip raw))
                     GITHUB_URL ""))
               GITHUB_URL ""))
         GITHUB_URL "")
      ", ".
Proof.
  unfold clean_urls. cbn [foldl negb]. by rewrite !replace_char.
Qed.

Lemma contains_char_replace (c : ascii) (s old : string) :
  old <> "" ->
  PyStr.contains_char c s = false ->
  PyStr.contains_char c (PyStr.replace s old "") = false.
Proof.
  intros Hold H. destruct old; [done|]. by apply contains_char_replace_from.
Qed.

Lemma clean_urls_no_excluded (view_in_browser : bool) (raw u : string) :
  u ∈ clean_urls view_in_browser raw ->
  PyStr.contains_char "[" u = false
  /\ PyStr.contains_char "]" u = false
  /\ PyStr.contains_char "'" u = false.
Proof.
  destruct view_in_browser.
  - rewrite clean_urls_true. intros Hu.
    repeat split; (eapply contains_char_split; [| |exact Hu]; [done|]).
    + do 2 apply contains_char_remove_other. apply contains_char_remove.
    + apply contains_char_remove_other. apply contains_char_remove.
    + apply contains_char_remove.
  - rewrite clean_urls_false. intros Hu.
    repeat split; (eapply contains_char_split; [| |exact Hu]; [done|]);
      apply contains_char_replace; try done.
    + apply contains_char_remove_other, contains_char_replace; [done|].
      apply contains_char_remove_other, contains_char_replace; [done|].
      apply contains_char_remove.
    + apply contains_char_remove_other, contains_char_replace; [done|].
      apply contains_char_remove.
    + apply contains_char_remove.
Qed.

(** ** Stripping *)

Lemma rstrip_snoc (s : string) (c : ascii) :
  PyStr.is_whitespace c = false ->
  PyStr.rstrip (s +:+ String c "") = s +:+ String c "".
Proof.
  intros Hc. induction s as [|d s IH].
  - rewrite app_empty_l. simpl. by rewrite Hc.
  - rewrite app_cons. simpl. rewrite IH. by destruct s.
Qed.

Lemma strip_bracketed (s : string) :
  PyStr.strip ("[" +:+ s +:+ "]") = "[" +:+ s +:+ "]".
Proof.
  unfold PyStr.strip. rewrite app_cons, app_empty_l.
  change (PyStr.lstrip (String "[" (s +:+ "]"))) with (String "[" (s +:+ "]")).
  rewrite <- app_cons. by apply rstrip_snoc.
Qed.

(** ** Characters that the pattern does not hold *)

Lemma prefix_drop_char (c : ascii) (p u : string) (k : nat) :
  PyStr.contains_char c p = false -> k < String.length p ->
  String.prefix (string_drop k p) (String c u) = false.
Proof.
  revert k. induction p as [|x p IH]; intros k Hc Hk; [simpl in Hk; lia|].
  simpl in Hc. destruct (Ascii.eqb c x) eqn:Hcx; [done|].
  destruct k as [|k].
  - rewrite string_drop_0, prefix_cons. by rewrite Ascii.eqb_sym, Hcx.
  - simpl. apply IH; [done|]. simpl in Hk. lia.
Qed.

Lemma no_straddle_char (c : ascii) (p u : string) :
  PyStr.contains_char c p = false -> no_straddle p (String c u).
Proof. intros Hc k _ Hk. by apply prefix_drop_char. Qed.

Lemma has_sub_empty (p : string) : p <> "" -> has_sub p "" = false.
Proof. by destruct p. Qed.

(** An occurrence of [p] cannot run over a character that [p] does not
    hold. *)
Lemma has_sub_app_char (c : ascii) (p a b : string) :
  p <> "" -> PyStr.contains_char c p = false ->
  has_sub p (a +:+ String c b) = has_sub p a || has_sub p b.
Proof.
  intros Hp Hc. induction a as [|x a IH].
  - rewrite app_empty_l, has_sub_cons, (has_sub_empty p Hp).
    replace (String.prefix p (String c b)) with false; [done|].
    symmetry. rewrite <- (string_drop_0 p). apply prefix_drop_char; [done|].
    destruct p; [done|simpl; lia].
  - rewrite app_cons, !has_sub_cons, <- app_cons.
    rewrite (prefix_before p (String x a) (String c b)); [|by apply no_straddle_char|done].
    by rewrite IH, orb_assoc.
Qed.

Lemma has_sub_cons_char (c : ascii) (p b : string) :
  p <> "" -> PyStr.contains_char c p = false ->
  has_sub p (String c b) = has_sub p b.
Proof.
  intros Hp Hc. change (String c b) with ("" +:+ String c b).
  by rewrite has_sub_app_char, has_sub_empty.
Qed.

Lemma has_sub_snoc_char (c : ascii) (p a : string) :
  p <> "" -> PyStr.contains_char c p = false ->
  has_sub p (a +:+ String c "") = has_sub p a.
Proof.
  intros Hp Hc. by rewrite has_sub_app_char, has_sub_empty, orb_false_r.
Qed.

(** ** Lists of entries *)

Lemma join_fold (f : string -> string) (e : string)
    (es : list string) (suffix : string) :
  PyStr.join ", " (f <$> e :: es) +:+ suffix = framed f suffix e es.
Proof.
  unfold framed. revert e. induction es as [|e2 es IH]; intros e; [done|].
  specialize (IH e2). rewrite !fmap_cons in *. rewrite join_cons.
  cbn [foldr]. by rewrite !app_assoc_s, IH.
Qed.

Lemma join_fold_nil (f : string -> string) (e : string)
    (es : list string) :
  PyStr.join ", " (f <$> e :: es) = framed f "" e es.
Proof. by rewrite <- join_fold, app_empty_r. Qed.

Lemma framed_cons (f : string -> string) (suffix e e2 : string)
    (es : list string) :
  framed f suffix e (e2 :: es) = f e +:+ ", " +:+ framed f suffix e2 es.
Proof. reflexivity. Qed.

Lemma framed_nil (f : string -> string) (suffix e : string) :
  framed f suffix e [] = f e +:+ suffix.
Proof. reflexivity. Qed.

Lemma remove_char_framed (c : ascii) (f g : string -> string)
    (suffix e : string) (es : list string) :
  remove_char c ", " = ", " ->
  Forall (fun x => remove_char c (f x) = g x) (e :: es) ->
  remove_char c (framed f suffix e es) = framed g (remove_char c suffix) e es.
Proof.
  intros Hsep. revert e. induction es as [|e2 es IH]; intros e He.
  - apply Forall_cons in He as [He _].
    by rewrite !framed_nil, remove_char_app, He.
  - apply Forall_cons in He as [He Hes].
    by rewrite !framed_cons, !remove_char_app, He, Hsep, IH.
Qed.

Lemma has_sub_framed (p : string) (f : string -> string) (e : string)
    (es : list string) :
  p <> "" -> PyStr.contains_char "," p = false ->
  PyStr.contains_char " " p = false ->
  Forall (fun x => has_sub p (f x) = false) (e :: es) ->
  has_sub p (framed f "" e es) = false.
Proof.
  intros Hp Hcomma Hspace. revert e. induction es as [|e2 es IH]; intros e He.
  - apply Forall_cons in He as [He _]. by rewrite framed_nil, app_empty_r.
  - apply Forall_cons in He as [He Hes]. rewrite framed_cons.
    change (", " +:+ framed f "" e2 es)
      with (String "," (String " " (framed f "" e2 es))).
    rewrite has_sub_app_char, has_sub_cons_char, He, IH; done.
Qed.

Lemma split_framed (f : string -> string) (e : string) (es : list string) :
  Forall (fun x => has_sub ", " (f x) = false) (e :: es) ->
  PyStr.split (framed f "" e es) ", " = f <$> e :: es.
Proof.
  unfold PyStr.split. revert e. induction es as [|e2 es IH]; intros e He.
  - apply Forall_cons in He as [He _]. rewrite framed_nil.
    rewrite split_from_before; [|done|by apply no_straddle_empty].
    by rewrite app_empty_r.
  - apply Forall_cons in He as [He Hes]. rewrite framed_cons.
    rewrite split_from_before; [|done|apply separator_no_overlap].
    change (", " +:+ framed f "" e2 es)
      with (String "," (String " " (framed f "" e2 es))).
    rewrite split_from_cons.
    change (String.prefix ", " (String "," (String " " (framed f "" e2 es))))
      with (String.prefix "" (framed f "" e2 es)).
    rewrite prefix_empty.
    change (PyStr.split_from ", " (String.length ", " - 1)
              (String " " (framed f "" e2 es)))
      with (PyStr.split_from ", " 0 (framed f "" e2 es)).
    cbn [fst snd]. rewrite app_empty_r.
    specialize (IH e2 Hes).
    destruct (PyStr.split_from ", " 0 (framed f "" e2 es)) as [x l].
    cbn [fst snd]. rewrite IH. by rewrite !fmap_cons.
Qed.

(** ** The passes of [clean_urls] over a list of urls of GitHub *)

Lemma replace_github_char (c : ascii) (s : string) :
  Ascii.eqb "h" c = false ->
  PyStr.replace_from GITHUB_URL "" 0 (String c s)
  = String c (PyStr.replace_from GITHUB_URL "" 0 s).
Proof.
  intros Hc. rewrite replace_from_cons. unfold GITHUB_URL at 1.
  by rewrite prefix_cons, Hc.
Qed.

Lemma replace_quoted_url (x rest : string) :
  has_sub GITHUB_URL x = false ->
  PyStr.replace_from GITHUB_URL "" 0 (quoted_url x +:+ rest)
  = quoted x +:+ PyStr.replace_from GITHUB_URL "" 0 rest.
Proof.
  intros Hx. unfold quoted_url, quoted.
  rewrite !app_assoc_s, !app_cons, !app_empty_l.
  rewrite replace_github_char by done.
  rewrite replace_from_match by done. rewrite app_empty_l.
  rewrite replace_from_before; [|done|by apply no_straddle_char].
  by rewrite replace_github_char by done.
Qed.

Lemma replace_framed_quoted_url (suffix e : string) (es : list string) :
  Forall (fun x => has_sub GITHUB_URL x = false) (e :: es) ->
  PyStr.replace (framed quoted_url suffix e es) GITHUB_URL ""
  = framed quoted (PyStr.replace suffix GITHUB_URL "") e es.
Proof.
  change (Forall (fun x => has_sub GITHUB_URL x = false) (e :: es) ->
          PyStr.replace_from GITHUB_URL "" 0 (framed quoted_url suffix e es)
          = framed quoted (PyStr.replace_from GITHUB_URL "" 0 suffix) e es).
  revert e. induction es as [|e2 es IH]; intros e He.
  - apply Forall_cons in He as [He _]. rewrite !framed_nil.
    by apply replace_quoted_url.
  - apply Forall_cons in He as [He Hes]. rewrite !framed_cons.
    rewrite replace_quoted_url by done.
    change (", " +:+ framed quoted_url suffix e2 es)
      with (String "," (String " " (framed quoted_url suffix e2 es))).
    rewrite !replace_github_char by done. by rewrite IH.
Qed.

Lemma replace_none (s old : string) :
  old <> "" -> has_sub old s = false -> PyStr.replace s old "" = s.
Proof.
  intros Hold Hs. destruct old as [|a old]; [done|].
  by apply replace_from_none.
Qed.

Section Entries.
Variables (e : string) (es : list string).
Hypothesis plain : Forall plain_entry (e :: es).

Lemma plain_no_github_url :
  Forall (fun x => has_sub GITHUB_URL x = false) (e :: es).
Proof. eapply Forall_impl; [exact plain|]. by intros x (_ & _ & _ & _ & ?). Qed.

Lemma stored_list_framed :
  stored_list (e :: es) = "[" +:+ framed quoted_url "]" e es.
Proof. unfold stored_list. by rewrite join_fold. Qed.

Lemma strip_stored_list : PyStr.strip (stored_list (e :: es)) = stored_list (e :: es).
Proof. apply strip_bracketed. Qed.

Lemma remove_open_bracket :
  remove_char "[" (stored_list (e :: es)) = framed quoted_url "]" e es.
Proof.
  rewrite stored_list_framed.
  change (remove_char "[" ("[" +:+ framed quoted_url "]" e es))
    with (remove_char "[" (framed quoted_url "]" e es)).
  rewrite (remove_char_framed "[" quoted_url quoted_url); [done..|].
  eapply Forall_impl; [exact plain|]. intros x (Hx & _). unfold quoted_url.
  rewrite !remove_char_app, (remove_char_absent _ _ Hx). reflexivity.
Qed.

Lemma remove_close_bracket (f : string -> string) :
  (forall x, plain_entry x -> remove_char "]" (f x) = f x) ->
  remove_char "]" (framed f "]" e es) = framed f "" e es.
Proof.
  intros Hf. rewrite (remove_char_framed "]" f f); [done..|].
  eapply Forall_impl; [exact plain|]. exact Hf.
Qed.

Lemma remove_quotes (f g : string -> string) :
  (forall x, plain_entry x -> remove_char "'" (f x) = g x) ->
  remove_char "'" (framed f "" e es) = framed g "" e es.
Proof.
  intros Hf. rewrite (remove_char_framed "'" f g); [done..|].
  eapply Forall_impl; [exact plain|]. exact Hf.
Qed.

Lemma clean_urls_true_stored :
  clean_urls true (stored_list (e :: es)) = (fun x => GITHUB_URL +:+ x) <$> e :: es.
Proof.
  rewrite clean_urls_true, strip_stored_list, remove_open_bracket.
  rewrite (remove_close_bracket quoted_url).
  2:{ intros x (_ & Hx & _). unfold quoted_url.
      rewrite !remove_char_app, (remove_char_absent _ _ Hx). reflexivity. }
  rewrite (remove_quotes quoted_url (fun x => GITHUB_URL +:+ x)).
  2:{ intros x (_ & _ & Hx & _). unfold quoted_url.
      rewrite !remove_char_app, (remove_char_absent _ _ Hx).
      change (remove_char "'" "'") with "". change (remove_char "'" GITHUB_URL) with GITHUB_URL.
      by rewrite app_empty_l, app_empty_r. }
  apply split_framed.
  eapply Forall_impl; [exact plain|]. by intros x (_ & _ & _ & Hx & _).
Qed.

Lemma clean_urls_false_stored :
  clean_urls false (stored_list (e :: es)) = e :: es.
Proof.
  rewrite clean_urls_false, strip_stored_list, remove_open_bracket.
  rewrite replace_framed_quoted_url by apply plain_no_github_url.
  change (PyStr.replace "]" GITHUB_URL "") with "]".
  rewrite (remove_close_bracket quoted).
  2:{ intros x (_ & Hx & _). unfold quoted.
      rewrite !remove_char_app, (remove_char_absent _ _ Hx). reflexivity. }
  rewrite (replace_none (framed quoted "" e es)); [|done|].
  2:{ apply has_sub_framed; [done..|].
      eapply Forall_impl; [exact plain|]. intros x (_ & _ & _ & _ & Hx).
      unfold quoted. rewrite app_cons, app_empty_l.
      rewrite has_sub_cons_char, has_sub_snoc_char; done. }
  rewrite (remove_quotes quoted (fun x => x)).
  2:{ intros x (_ & _ & Hx & _). unfold quoted.
      rewrite !remove_char_app, (remove_char_absent _ _ Hx).
      change (remove_char "'" "'") with "".
      by rewrite app_empty_l, app_empty_r. }
  rewrite (replace_none (framed (fun x => x) "" e es)); [|done|].
  2:{ apply has_sub_framed; [done..|]. apply plain_no_github_url. }
  rewrite split_framed; [by rewrite list_fmap_id|].
  eapply Forall_impl; [exact plain|]. by intros x (_ & _ & _ & Hx & _).
Qed.

End Entries.

(** ** [load_urls] *)

Lemma load_urls_run {gh : GitHub3} (view_in_browser : bool) (st : State gh)
    (raw : string) :
  url_file (world st) raw ->
  load_urls view_in_browser st = (Ok (clean_urls view_in_browser raw), st).
Proof.
  intros (f & table & Hf & Hr & Hd & Hget).
  unfold load_urls, get_github_config_path, open_read, parser_get.
  unfold mbind, M_bind, mret, M_ret, bind, ret, raise, lift, get_world. simpl.
  unfold urls_path in Hf. rewrite Hf, Hr. simpl. rewrite Hd. simpl.
  rewrite read_table_new, Hget. reflexivity.
Qed.

(** C6. With the stored value ['https://github.com/a/b',
    'https://github.com/c/d'], [load_urls(False)] returns [a/b] and [c/d]
    and [load_urls(True)] the two urls whole; and so for every stored list
    of urls of GitHub whose entries hold no bracket, no quote, no
    separator and no further address: the address is taken off every
    entry when [view_in_browser] is false and kept when it is true. *)
Theorem load_urls_strips_github_prefix (gh : GitHub3) (st : State gh)
    (raw : string) :
  url_file (world st) raw ->
  (raw = "['https://github.com/a/b', 'https://github.com/c/d']" ->
   load_urls false st = (Ok ["a/b"; "c/d"], st)
   /\ load_urls true st
      = (Ok ["https://github.com/a/b"; "https://github.com/c/d"], st))
  /\ (forall e es,
        Forall plain_entry (e :: es) -> raw = stored_list (e :: es) ->
        load_urls false st = (Ok (e :: es), st)
        /\ load_urls true st
           = (Ok ((fun x => GITHUB_URL +:+ x) <$> e :: es), st)).
Proof.
  intros Hfile. split.
  - intros ->. by rewrite !(load_urls_run _ st _ Hfile).
  - intros e es Hplain ->. rewrite !(load_urls_run _ st _ Hfile).
    by rewrite clean_urls_false_stored, clean_urls_true_stored.
Qed.

Lemma load_urls_strips_github_prefix_witness :
  url_file (world (url_state "['https://github.com/a/b', 'https://github.com/c/d']"))
    "['https://github.com/a/b', 'https://github.com/c/d']"
  /\ Forall plain_entry ["a/b"; "c/d"]
  /\ load_urls false (url_state "['https://github.com/a/b', 'https://github.com/c/d']")
     = (Ok ["a/b"; "c/d"],
        url_state "['https://github.com/a/b', 'https://github.com/c/d']")
  /\ load_urls true (url_state "['https://github.com/a/b', 'https://github.com/c/d']")
     = (Ok ["https://github.com/a/b"; "https://github.com/c/d"],
        url_state "['https://github.com/a/b', 'https://github.com/c/d']").
Proof.
  assert (Hfile : url_file
            (world (url_state "['https://github.com/a/b', 'https://github.com/c/d']"))
            "['https://github.com/a/b', 'https://github.com/c/d']").
  { eexists _, _. repeat split; reflexivity. }
  assert (Hplain : Forall plain_entry ["a/b"; "c/d"]).
  { repeat constructor. }
  split; [exact Hfile|]. split; [exact Hplain|].
  exact (proj2 (load_urls_strips_github_prefix rejecting_github3 _ _ Hfile)
           "a/b" ["c/d"] Hplain eq_refl).
Defined.

(** C10. Whatever the stored value, no entry returned by [load_urls] holds
    a bracket or a single quote: with [view_in_browser] true the entries,
    joined again, are the stripped value with every such character
    deleted, wherever it stood; with [view_in_browser] false three
    replacements of the address of GitHub by nothing are interleaved with
    the deletions, and such a replacement deletes the address wherever it
    stands, not only at the head. *)
Theorem load_urls_deletes_everywhere (gh : GitHub3) (st : State gh)
    (raw : string) :
  url_file (world st) raw ->
  (forall view_in_browser,
     exists urls,
       load_urls view_in_browser st = (Ok urls, st)
       /\ (forall u, u ∈ urls ->
             PyStr.contains_char "[" u = false
             /\ PyStr.contains_char "]" u = false
             /\ PyStr.contains_char "'" u = false)
       /\ PyStr.join ", " urls
          = if view_in_browser
            then remove_char "'"
                   (remove_char "]" (remove_char "[" (PyStr.strip raw)))
            else PyStr.replace
                   (remove_char "'"
                      (PyStr.replace
                         (remove_char "]"
                            (PyStr.replace
                               (remove_char "[" (PyStr.strip raw))
                               GITHUB_URL ""))
                         GITHUB_URL ""))
                   GITHUB_URL "")
  /\ (forall a b,
        PyStr.replace (a +:+ GITHUB_URL +:+ b) GITHUB_URL ""
        = PyStr.replace a GITHUB_URL "" +:+ PyStr.replace b GITHUB_URL "").
Proof.
  intros Hfile. split; [|apply replace_github_url_anywhere].
  intros vib. exists (clean_urls vib raw).
  split; [by apply load_urls_run|]. split; [apply clean_urls_no_excluded|].
  destruct vib.
  - rewrite clean_urls_true. by apply join_split.
  - rewrite clean_urls_false. by apply join_split.
Qed.

Lemma load_urls_deletes_everywhere_witness :
  url_file (world (url_state unusual_urls)) unusual_urls
  /\ (exists urls,
        load_urls true (url_state unusual_urls)
        = (Ok urls, url_state unusual_urls)
        /\ PyStr.join ", " urls
           = "https://github.com/a/b1, https://github.com/x/https://github.com/y")
  /\ (exists urls,
        load_urls false (url_state unusual_urls)
        = (Ok urls, url_state unusual_urls)
        /\ PyStr.join ", " urls = "a/b1, x/y").
Proof.
  assert (Hfile : url_file (world (url_state unusual_urls)) unusual_urls).
  { eexists _, _. repeat split; reflexivity. }
  split; [exact Hfile|].
  pose proof (load_urls_deletes_everywhere rejecting_github3
                (url_state unusual_urls) unusual_urls Hfile) as [H _].
  split.
  - destruct (H true) as (urls & Hl & _ & Hj). exists urls. split; [exact Hl|exact Hj].
  - destruct (H false) as (urls & Hl & _ & Hj). exists urls. split; [exact Hl|exact Hj].
Defined.

Example load_urls_unusual :
  clean_urls true unusual_urls
  = ["https://github.com/a/b1"; "https://github.com/x/https://github.com/y"]
  /\ clean_urls false unusual_urls = ["a/b1"; "x/y"].
Proof. split; reflexivity. Qed.

(** ** From [save_urls] to [load_urls] *)

Lemma repr_body_plain (s : string) :
  repr_plain s = true -> PyStr.repr_body "'" s = s.
Proof.
  induction s as [|c s IH]; [done|]. cbn [repr_plain PyStr.repr_body].
  intros [[[Hp Hq%negb_true_iff]%andb_prop Hb%negb_true_iff]%andb_prop Hs]%andb_prop.
  rewrite IH by done. unfold PyStr.repr_char. rewrite Hq, Hb. cbn [orb].
  destruct (Ascii.eqb c "009") eqn:Ht.
  { apply Ascii.eqb_eq in Ht as ->. done. }
  destruct (Ascii.eqb c "010") eqn:Hn.
  { apply Ascii.eqb_eq in Hn as ->. done. }
  destruct (Ascii.eqb c "013") eqn:Hr.
  { apply Ascii.eqb_eq in Hr as ->. done. }
  by rewrite Hp.
Qed.

Lemma contains_quote_plain (s : string) :
  repr_plain s = true -> PyStr.contains_char "'" s = false.
Proof.
  induction s as [|c s IH]; [done|]. cbn [repr_plain PyStr.contains_char].
  intros [[[_ Hq%negb_true_iff]%andb_prop _]%andb_prop Hs]%andb_prop.
  rewrite Ascii.eqb_sym, Hq. by apply IH.
Qed.

Lemma repr_plain_string (s : string) :
  repr_plain s = true -> PyStr.repr s = "'" +:+ s +:+ "'".
Proof.
  intros Hs. unfold PyStr.repr.
  rewrite (contains_quote_plain s Hs). simpl. by rewrite repr_body_plain.
Qed.

Lemma repr_plain_app (s t : string) :
  repr_plain (s +:+ t) = repr_plain s && repr_plain t.
Proof.
  induction s as [|c s IH]; [done|]. rewrite app_cons. simpl.
  by rewrite IH, !andb_assoc.
Qed.

Lemma str_of_list_stored (es : list string) :
  Forall (fun x => repr_plain x = true) es ->
  PyStr.str_of_list ((fun x => GITHUB_URL +:+ x) <$> es) = stored_list es.
Proof.
  intros Hes. unfold PyStr.str_of_list, stored_list. do 3 f_equal.
  rewrite <- list_fmap_compose. apply Forall_fmap_ext.
  eapply Forall_impl; [exact Hes|]. intros x Hx. simpl.
  rewrite repr_plain_string; [done|]. by rewrite repr_plain_app, Hx.
Qed.

(** X13. What [save_urls] wrote, [load_urls] reads back, for urls of
    GitHub made of printable characters with no bracket, quote, backslash,
    separator or further address: the urls whole when [view_in_browser] is
    true, without the address when it is false. *)
Lemma save_then_load_urls {gh : GitHub3} (st : State gh) (e : string)
    (es : list string) (view_in_browser : bool) :
  Forall plain_entry (e :: es) ->
  Forall (fun x => repr_plain x = true) (e :: es) ->
  result (save_list ((fun x => GITHUB_URL +:+ x) <$> e :: es)) st = Ok tt ->
  result (load_urls view_in_browser)
    (final (save_list ((fun x => GITHUB_URL +:+ x) <$> e :: es)) st)
  = Ok (if view_in_browser
        then (fun x => GITHUB_URL +:+ x) <$> e :: es
        else e :: es).
Proof.
  intros Hplain Hrepr Hok.
  set (l := (fun x => GITHUB_URL +:+ x) <$> e :: es) in *.
  assert (url_file (world (final (save_list l) st)) (stored_list (e :: es)))
    as Hfile.
  { revert Hok. unfold result, final. rewrite save_list_run. simpl.
    unfold url_file.
    destruct (fs (world st) !! urls_path (world st)) as [f|] eqn:Hf.
    - destruct (readable f && writable f) eqn:Hrw; [|discriminate].
      intros _. apply andb_prop in Hrw as [Hr _]. simpl.
      eexists _, (url_table l). unfold urls_path in *. simpl.
      rewrite lookup_insert_eq. split; [done|]. split; [done|]. split; [done|].
      unfold l. by rewrite <- str_of_list_stored.
    - intros _. simpl. eexists _, (url_table l). unfold urls_path in *. simpl.
      rewrite lookup_insert_eq. split; [done|]. split; [done|]. split; [done|].
      unfold l. by rewrite <- str_of_list_stored. }
  unfold result at 1. rewrite (load_urls_run _ _ _ Hfile). simpl.
  destruct view_in_browser.
  - by rewrite clean_urls_true_stored.
  - by rewrite clean_urls_false_stored.
Qed.

Example save_then_load_urls_ex :
  result (save_list ["https://github.com/a/b"; "https://github.com/c/d"];;
          load_urls false)
    (sample_state rejecting_github3 ∅ [])
  = Ok ["a/b"; "c/d"].
Proof. reflexivity. Qed.

(** ** [Config()] *)

Lemma authenticate_keeps_token_and_pass {gh : GitHub3} (st : State gh) :
  user_token (self (final authenticate st)) = user_token (self st)
  /\ user_pass (self (final authenticate st)) = user_pass (self st).
Proof.
  unfold final.
  destruct (world_cases (world st)) as [Hn|[[table Ht]|(f & text & Hf & Hr & Hw & Hd)]].
  - by rewrite (authenticate_interactive st Hn).
  - rewrite (authenticate_saved st table Ht).
    unfold saved_credentials_run, read_feed.
    repeat (match goal with
            | |- context [match ?x with _ => _ end] => destruct x
            end; simpl; try done).
  - by rewrite (authenticate_other_text st f text Hf Hr Hw Hd).
Qed.

Lemma init_leaves_token_and_pass_none {gh : GitHub3} (st : State gh) :
  result __init__ st = Ok tt ->
  user_token (self (final __init__ st)) = None
  /\ user_pass (self (final __init__ st)) = None
  /\ urls (self (final __init__ st)) = Some [].
Proof.
  unfold result, final, __init__, assign_urls.
  unfold mbind, M_bind, mret, M_ret, bind, ret, get_self, put_self. simpl.
  set (st0 := {| self := _; world := world st |}).
  destruct (authenticate_keeps_token_and_pass st0) as [Ht Hp].
  unfold final in Ht, Hp.
  destruct (authenticate st0) as [[[]|err] st1] eqn:Hrun; [|discriminate].
  intros _. simpl in *. by rewrite Ht, Hp.
Qed.

(** ** A further sample

    The three replacements of [load_urls] take off three layers and no
    more. *)
Example load_urls_nested :
  clean_urls false nested_urls = ["https://github.com/x"].
Proof. reflexivity. Qed.


(** * Further properties of [authenticate] *)

(** An option that is in neither the section nor the defaults. *)
Lemma get_absent {V} (table : RawConfigParser V) (section option : string)
    (options : gmap string V) :
  sections table !! section = Some options ->
  optionxform option = option ->
  options !! option = None -> defaults table !! option = None ->
  ConfigParser.get table section option = Raise (NoOptionError option section).
Proof. unfold ConfigParser.get. intros -> -> -> ->. reflexivity. Qed.

(** What [parser.get] raises. *)
Lemma get_raises {V} (table : RawConfigParser V) (section option : string)
    (e : exn) :
  ConfigParser.get table section option = Raise e ->
  e = NoSectionError section
  \/ e = NoOptionError (optionxform option) section.
Proof.
  unfold ConfigParser.get.
  destruct (sections table !! section) as [options|].
  - destruct (options !! _); [discriminate|].
    destruct (defaults table !! _); [discriminate|]. intros [= <-]. by right.
  - destruct (bool_decide (section = DEFAULTSECT)).
    + rewrite lookup_empty. destruct (defaults table !! _); [discriminate|].
      intros [= <-]. by right.
    + intros [= <-]. by left.
Qed.

Lemma read_feed_world {gh : GitHub3} (table : RawConfigParser string)
    (st : State gh) :
  world (read_feed table st).2 = world st.
Proof.
  unfold read_feed.
  by destruct (ConfigParser.get table CONFIG_SECTION CONFIG_USER_FEED).
Qed.

(** The world after the saved-credentials branch: the calls made are added
    to the record, and there is at most one, a [login]. *)
Lemma saved_credentials_run_world {gh : GitHub3}
    (table : RawConfigParser string) (st : State gh) :
  exists new,
    world (saved_credentials_run table st).2
    = with_api_calls (world st) (api_calls (world st) ++ new)
    /\ (new = [] \/ exists args, new = [CallLogin args]).
Proof.
  assert (Hsame : world st
                  = with_api_calls (world st) (api_calls (world st) ++ [])).
  { rewrite app_nil_r. by destruct (world st). }
  unfold saved_credentials_run.
  destruct (ConfigParser.get table CONFIG_SECTION CONFIG_USER_LOGIN) as [u|e].
  2:{ exists []. simpl. auto. }
  destruct (ConfigParser.get table CONFIG_SECTION CONFIG_USER_TOKEN) as [t|e].
  { exists [CallLogin (token_login u t)]. rewrite read_feed_world. simpl. eauto. }
  destruct e; try (exists []; simpl; by auto).
  destruct (ConfigParser.get table CONFIG_SECTION CONFIG_USER_PASS) as [p|e].
  - exists [CallLogin (password_login u p)]. rewrite read_feed_world. simpl. eauto.
  - exists []. simpl. auto.
Qed.

(** X1. [authenticate] has no effect outside the object but at most one
    call to [login]: it writes no file, reads no line from the terminal
    and prints nothing, leaves the environment alone, and never calls
    [authorize]. *)
Theorem authenticate_side_effects (gh : GitHub3) (st : State gh) :
  let st' := final authenticate st in
  fs (world st') = fs (world st)
  /\ stdin (world st') = stdin (world st)
  /\ stdout (world st') = stdout (world st)
  /\ environ (world st') = environ (world st)
  /\ cwd (world st') = cwd (world st)
  /\ api_calls (world st') = api_calls (world st) ++ calls_made st st'
  /\ (calls_made st st' = []
      \/ exists args, calls_made st st' = [CallLogin args]).
Proof.
  intros st'. subst st'. unfold final.
  destruct (world_cases (world st))
    as [Hn|[[table Ht]|(f & text & Hf & Hr & Hw & Hd)]].
  - rewrite (authenticate_interactive st Hn). simpl.
    rewrite (calls_made_same st (with_user_login st "") eq_refl).
    rewrite app_nil_r. auto 10.
  - rewrite (authenticate_saved st table Ht).
    destruct (saved_credentials_run_world table st) as (new & Hw & Hnew).
    assert (Hcalls : calls_made st (saved_credentials_run table st).2 = new).
    { apply calls_made_app. by rewrite Hw. }
    rewrite Hcalls, Hw. simpl. auto 10.
  - rewrite (authenticate_other_text st f text Hf Hr Hw Hd). simpl.
    rewrite (calls_made_same st st eq_refl), app_nil_r. auto 10.
Qed.

(** X2. Without a [user_token], in the section or in the defaults, and
    with a [user_pass], [authenticate] logs in with the password: the one
    call made is [login(username, password)] and its session is kept. *)
Theorem password_login_when_token_absent (gh : GitHub3) (st : State gh)
    (table : RawConfigParser string) (options : gmap string string)
    (username password : string) :
  credentials_file (world st) table ->
  sections table !! CONFIG_SECTION = Some options ->
  options !! CONFIG_USER_TOKEN = None ->
  defaults table !! CONFIG_USER_TOKEN = None ->
  ConfigParser.get table CONFIG_SECTION CONFIG_USER_LOGIN = Ok username ->
  ConfigParser.get table CONFIG_SECTION CONFIG_USER_PASS = Ok password ->
  let st' := final authenticate st in
  calls_made st st' = [CallLogin (password_login username password)]
  /\ api (self st') = Some (login gh (password_login username password)).
Proof.
  intros Hfile Hsec Htok Hdef Hlogin Hpass st'. subst st'. unfold final.
  rewrite (authenticate_saved st table Hfile). unfold saved_credentials_run.
  rewrite Hlogin, Hpass.
  rewrite (get_absent table CONFIG_SECTION CONFIG_USER_TOKEN options Hsec eq_refl Htok Hdef).
  apply (read_feed_keeps_session table st (with_user_login st username)
           (password_login username password) eq_refl).
Qed.

Lemma password_login_when_token_absent_witness :
  credentials_file (world pass_only_state) pass_only_table
  /\ calls_made pass_only_state (final authenticate pass_only_state)
     = [CallLogin (password_login "octocat" "hunter2")]
  /\ api (self (final authenticate pass_only_state))
     = Some (password_login "octocat" "hunter2").
Proof.
  assert (Hfile : credentials_file (world pass_only_state) pass_only_table).
  { exists (sample_file pass_only_table). repeat split; reflexivity. }
  split; [exact Hfile|].
  refine (password_login_when_token_absent rejecting_github3 pass_only_state
            pass_only_table
            (list_to_map [("user_login", "octocat"); ("user_pass", "hunter2");
                          ("user_feed", "https://feed")])
            "octocat" "hunter2" Hfile _ _ _ _ _); reflexivity.
Defined.

(** X3. When [user_login] cannot be read, the section missing or the
    option missing from it and from the defaults, [authenticate] raises
    what [parser.get] raised, before any call to [login] and before any
    assignment: the state is as it was. *)
Theorem authenticate_without_login_option (gh : GitHub3) (st : State gh)
    (table : RawConfigParser string) (e : exn) :
  credentials_file (world st) table ->
  ConfigParser.get table CONFIG_SECTION CONFIG_USER_LOGIN = Raise e ->
  authenticate st = (Raise e, st)
  /\ (e = NoSectionError CONFIG_SECTION
      \/ e = NoOptionError CONFIG_USER_LOGIN CONFIG_SECTION).
Proof.
  intros Hfile Hget. rewrite (authenticate_saved st table Hfile).
  unfold saved_credentials_run. rewrite Hget. split; [done|].
  apply (get_raises _ _ _ _ Hget).
Qed.

Lemma authenticate_without_login_option_witness :
  credentials_file (world (credentials_state no_login_table)) no_login_table
  /\ authenticate (credentials_state no_login_table)
     = (Raise (NoOptionError "user_login" "github"),
        credentials_state no_login_table).
Proof.
  assert (Hfile : credentials_file (world (credentials_state no_login_table))
                    no_login_table).
  { exists (sample_file no_login_table). repeat split; reflexivity. }
  split; [exact Hfile|].
  exact (proj1 (authenticate_without_login_option rejecting_github3
                  (credentials_state no_login_table) no_login_table
                  (NoOptionError "user_login" "github") Hfile eq_refl)).
Defined.

(** X4. With a login and neither [user_token] nor [user_pass],
    [authenticate] raises [NoOptionError] for [user_pass] out of its
    handler: [self.user_login] is assigned already, no session is built
    and [login] is not called. *)
Theorem authenticate_without_token_and_pass (gh : GitHub3) (st : State gh)
    (table : RawConfigParser string) (options : gmap string string)
    (username : string) :
  credentials_file (world st) table ->
  sections table !! CONFIG_SECTION = Some options ->
  ConfigParser.get table CONFIG_SECTION CONFIG_USER_LOGIN = Ok username ->
  options !! CONFIG_USER_TOKEN = None ->
  defaults table !! CONFIG_USER_TOKEN = None ->
  options !! CONFIG_USER_PASS = None ->
  defaults table !! CONFIG_USER_PASS = None ->
  authenticate st
  = (Raise (NoOptionError CONFIG_USER_PASS CONFIG_SECTION),
     with_user_login st username).
Proof.
  intros Hfile Hsec Hlogin Htok Htokd Hpass Hpassd.
  rewrite (authenticate_saved st table Hfile). unfold saved_credentials_run.
  rewrite Hlogin.
  rewrite (get_absent table CONFIG_SECTION CONFIG_USER_TOKEN options Hsec eq_refl Htok Htokd).
  by rewrite (get_absent table CONFIG_SECTION CONFIG_USER_PASS options Hsec eq_refl Hpass Hpassd).
Qed.

Lemma authenticate_without_token_and_pass_witness :
  credentials_file (world (credentials_state login_only_table)) login_only_table
  /\ authenticate (credentials_state login_only_table)
     = (Raise (NoOptionError "user_pass" "github"),
        with_user_login (credentials_state login_only_table) "octocat").
Proof.
  assert (Hfile : credentials_file (world (credentials_state login_only_table))
                    login_only_table).
  { exists (sample_file login_only_table). repeat split; reflexivity. }
  split; [exact Hfile|].
  refine (authenticate_without_token_and_pass rejecting_github3
            (credentials_state login_only_table) login_only_table
            (list_to_map [("user_login", "octocat"); ("user_feed", "https://feed")])
            "octocat" Hfile _ _ _ _ _ _); reflexivity.
Defined.

(** X5. A credentials file without [user_feed] never authenticates: the
    session is built and kept, by token or by password, and then
    [authenticate] raises what reading [user_feed] raised. *)
Theorem authenticate_without_feed (gh : GitHub3) (st : State gh)
    (table : RawConfigParser string) (e : exn) :
  credentials_file (world st) table ->
  ConfigParser.get table CONFIG_SECTION CONFIG_USER_FEED = Raise e ->
  result authenticate st <> Ok tt
  /\ (forall username tok,
        ConfigParser.get table CONFIG_SECTION CONFIG_USER_LOGIN = Ok username ->
        ConfigParser.get table CONFIG_SECTION CONFIG_USER_TOKEN = Ok tok ->
        authenticate st
        = (Raise e,
           with_session (with_user_login st username)
             (token_login username tok)))
  /\ (forall username password option section,
        ConfigParser.get table CONFIG_SECTION CONFIG_USER_LOGIN = Ok username ->
        ConfigParser.get table CONFIG_SECTION CONFIG_USER_TOKEN
          = Raise (NoOptionError option section) ->
        ConfigParser.get table CONFIG_SECTION CONFIG_USER_PASS = Ok password ->
        authenticate st
        = (Raise e,
           with_session (with_user_login st username)
             (password_login username password))).
Proof.
  intros Hfile Hfeed. unfold result.
  rewrite (authenticate_saved st table Hfile).
  unfold saved_credentials_run, read_feed. rewrite Hfeed.
  split; [|split].
  - destruct (ConfigParser.get table CONFIG_SECTION CONFIG_USER_LOGIN);
      [|done].
    destruct (ConfigParser.get table CONFIG_SECTION CONFIG_USER_TOKEN)
      as [|[]]; try done.
    by destruct (ConfigParser.get table CONFIG_SECTION CONFIG_USER_PASS).
  - by intros u t -> ->.
  - by intros u p o s -> -> ->.
Qed.

Lemma authenticate_without_feed_witness :
  credentials_file (world (credentials_state no_feed_table)) no_feed_table
  /\ authenticate (credentials_state no_feed_table)
     = (Raise (NoOptionError "user_feed" "github"),
        with_session
          (with_user_login (credentials_state no_feed_table) "octocat")
          (token_login "octocat" "t0k3n")).
Proof.
  assert (Hfile : credentials_file (world (credentials_state no_feed_table))
                    no_feed_table).
  { exists (sample_file no_feed_table). repeat split; reflexivity. }
  split; [exact Hfile|].
  exact (proj1 (proj2 (authenticate_without_feed rejecting_github3
                         (credentials_state no_feed_table) no_feed_table
                         (NoOptionError "user_feed" "github") Hfile eq_refl))
           "octocat" "t0k3n" eq_refl eq_refl).
Defined.

(** X6. Whenever [authenticate] calls [login], the username it hands over
    is the value it stored in [self.user_login], the two-factor callback
    is [request_two_factor_code], and the session returned is the one in
    [self.api]. *)
Theorem login_called_with_stored_login (gh : GitHub3) (st : State gh)
    (args : LoginArgs) :
  CallLogin args ∈ calls_made st (final authenticate st) ->
  login_username args = user_login (self (final authenticate st))
  /\ login_two_factor_callback args = Some request_two_factor_code_method
  /\ api (self (final authenticate st)) = Some (login gh args).
Proof.
  unfold final.
  destruct (world_cases (world st))
    as [Hn|[[table Ht]|(f & text & Hf & Hr & Hw & Hd)]].
  - rewrite (authenticate_interactive st Hn). cbn [snd].
    rewrite (calls_made_same st (with_user_login st "") eq_refl).
    by intros ?%elem_of_nil.
  - rewrite (authenticate_saved st table Ht). unfold saved_credentials_run.
    destruct (ConfigParser.get table CONFIG_SECTION CONFIG_USER_LOGIN) as [u|e].
    2:{ cbn [snd]. rewrite (calls_made_same st st eq_refl).
        by intros ?%elem_of_nil. }
    assert (Hnone : calls_made st (with_user_login st u) = [])
      by (by apply calls_made_same).
    assert (Hsession : forall a,
      CallLogin args ∈ calls_made st (read_feed table (with_session (with_user_login st u) a)).2 ->
      login_username a = Some u ->
      login_two_factor_callback a = Some request_two_factor_code_method ->
      login_username args = user_login (self (read_feed table (with_session (with_user_login st u) a)).2)
      /\ login_two_factor_callback args = Some request_two_factor_code_method
      /\ api (self (read_feed table (with_session (with_user_login st u) a)).2)
         = Some (login gh args)).
    { intros a Hin Hu Hcb.
      destruct (read_feed_keeps_session table st (with_user_login st u) a eq_refl)
        as [Hc Ha].
      rewrite Hc in Hin. apply list_elem_of_singleton in Hin as [= ->].
      split; [|done]. rewrite Hu. unfold read_feed.
      by destruct (ConfigParser.get table CONFIG_SECTION CONFIG_USER_FEED). }
    destruct (ConfigParser.get table CONFIG_SECTION CONFIG_USER_TOKEN) as [t|e].
    { intros Hin. by apply (Hsession (token_login u t)). }
    destruct e; try (cbn [snd]; rewrite Hnone; by intros ?%elem_of_nil).
    destruct (ConfigParser.get table CONFIG_SECTION CONFIG_USER_PASS) as [p|e].
    + intros Hin. by apply (Hsession (password_login u p)).
    + cbn [snd]. rewrite Hnone. by intros ?%elem_of_nil.
  - rewrite (authenticate_other_text st f text Hf Hr Hw Hd). cbn [snd].
    rewrite (calls_made_same st st eq_refl). by intros ?%elem_of_nil.
Qed.

Lemma login_called_with_stored_login_witness :
  CallLogin (token_login "octocat" "t0k3n")
    ∈ calls_made token_and_pass_state (final authenticate token_and_pass_state)
  /\ user_login (self (final authenticate token_and_pass_state))
     = Some "octocat"
  /\ api (self (final authenticate token_and_pass_state))
     = Some (token_login "octocat" "t0k3n").
Proof.
  assert (Hin : CallLogin (token_login "octocat" "t0k3n")
                  ∈ calls_made token_and_pass_state
                      (final authenticate token_and_pass_state)).
  { apply list_elem_of_singleton. reflexivity. }
  split; [exact Hin|].
  destruct (login_called_with_stored_login rejecting_github3
              token_and_pass_state _ Hin) as (Hu & _ & Ha).
  split; [symmetry; exact Hu|exact Ha].
Defined.

(** * Further properties of [request_two_factor_code] *)

(** A sample for X7. *)
Lemma request_two_factor_code_first_nonempty_witness :
  stdin (world (terminal_state [""; ""; "123456"; "later"]))
    = [""; ""] ++ "123456" :: ["later"]
  /\ request_two_factor_code (terminal_state [""; ""; "123456"; "later"])
     = (Ok "123456",
        {| self := fresh_config rejecting_github3;
           world := with_terminal
                      (world (terminal_state [""; ""; "123456"; "later"]))
                      ["later"]
                      (replicate 3 "Enter 2FA code: ") |}).
Proof.
  split; [reflexivity|].
  apply (request_two_factor_code_first_nonempty
           (terminal_state [""; ""; "123456"; "later"])
           [""; ""] "123456" ["later"]).
  - reflexivity.
  - repeat constructor.
  - discriminate.
Defined.

Lemma while_not_read_all_empty (prompt : string) (lines out : list string) :
  Forall (eq "") lines ->
  while_not_read "input" prompt "" lines out
  = (Raise EOFError, ([], out ++ replicate (S (length lines)) prompt)).
Proof.
  intros Hlines. revert out. induction Hlines as [|e lines <- _ IH]; intros out.
  - reflexivity.
  - simpl. simpl in IH. rewrite IH. by rewrite <- app_assoc.
Qed.

(** X8. When the terminal has nothing but empty lines left,
    [request_two_factor_code] reads them all, prompting before each and
    once more at the end of the input, and raises [EOFError]. *)
Theorem request_two_factor_code_end_of_input (gh : GitHub3) (st : State gh) :
  Forall (eq "") (stdin (world st)) ->
  request_two_factor_code st
  = (Raise EOFError,
     {| self := self st;
        world := with_terminal (world st) []
                   (stdout (world st)
                    ++ replicate (S (length (stdin (world st))))
                         "Enter 2FA code: ") |}).
Proof.
  intros Hlines. unfold request_two_factor_code, while_not. run.
  by rewrite (while_not_read_all_empty _ _ _ Hlines).
Qed.

Lemma request_two_factor_code_end_of_input_witness :
  Forall (eq "") (stdin (world (terminal_state [""; ""])))
  /\ request_two_factor_code (terminal_state [""; ""])
     = (Raise EOFError,
        {| self := fresh_config rejecting_github3;
           world := with_terminal (world (terminal_state [""; ""])) []
                      (replicate 3 "Enter 2FA code: ") |}).
Proof.
  assert (H : Forall (eq "") (stdin (world (terminal_state [""; ""]))))
    by repeat constructor.
  split; [exact H|].
  apply (request_two_factor_code_end_of_input rejecting_github3
           (terminal_state [""; ""]) H).
Defined.

Lemma while_not_read_outcome (prompt v : string) (lines out : list string) :
  match (while_not_read "input" prompt v lines out).1 with
  | Ok code => code <> ""
  | Raise e => e = EOFError /\ v = "" /\ Forall (eq "") lines
  end.
Proof.
  revert v out. induction lines as [|line lines IH]; intros v out.
  - destruct v; simpl; [auto|done].
  - destruct v as [|c v]; [|done]. simpl.
    specialize (IH line (out ++ [prompt])).
    destruct (while_not_read "input" prompt line lines (out ++ [prompt])).1
      as [code|e]; [done|].
    destruct IH as (-> & -> & Hl). auto.
Qed.

(** X9. [request_two_factor_code] never returns the empty string, and the
    only exception it raises is [EOFError], when no line with a character
    on it is left; it touches neither the object nor the files. *)
Theorem request_two_factor_code_outcome (gh : GitHub3) (st : State gh) :
  match result request_two_factor_code st with
  | Ok code => code <> ""
  | Raise e => e = EOFError /\ Forall (eq "") (stdin (world st))
  end
  /\ self (final request_two_factor_code st) = self st
  /\ fs (world (final request_two_factor_code st)) = fs (world st)
  /\ api_calls (world (final request_two_factor_code st))
     = api_calls (world st).
Proof.
  unfold result, final, request_two_factor_code, while_not. run.
  pose proof (while_not_read_outcome "Enter 2FA code: " ""
                (stdin (world st)) (stdout (world st))) as H.
  destruct (while_not_read "input" "Enter 2FA code: " ""
              (stdin (world st)) (stdout (world st))) as [[code|e] [l o]];
    simpl in *; [done|]. by destruct H as (-> & _ & Hl).
Qed.

(** * Further properties of [get_github_config_path] *)

Lemma isabs_app (s t : string) :
  PosixPath.isabs s = true -> PosixPath.isabs (s +:+ t) = true.
Proof.
  unfold PosixPath.isabs, PosixPath.sep. intros H.
  rewrite prefix_app_long; [done|]. by apply prefix_length in H.
Qed.

Lemma isabs_join (a b : string) :
  PosixPath.isabs a = true -> PosixPath.isabs (PosixPath.join a b) = true.
Proof.
  intros Ha. unfold PosixPath.join.
  destruct (String.prefix PosixPath.sep b) eqn:Hb; [exact Hb|].
  destruct (negb (PyStr.nonempty a) || PosixPath.endswith_sep a);
    by apply isabs_app.
Qed.

Lemma isabs_normpath (path : string) :
  PosixPath.isabs path = true ->
  PosixPath.isabs (PosixPath.normpath path) = true.
Proof.
  intros Habs. unfold PosixPath.normpath.
  destruct path as [|c path]; [done|]. cbn [PyStr.nonempty negb].
  unfold PosixPath.count_initial_slashes.
  unfold PosixPath.isabs in Habs. rewrite Habs.
  assert (Hhead : forall n s,
            PosixPath.repeat_sep (S n) +:+ s
            = String "/" (PosixPath.repeat_sep n +:+ s)) by reflexivity.
  destruct (String.prefix "//" (String c path)
            && negb (String.prefix "///" (String c path)));
    rewrite !Hhead; cbn [PyStr.nonempty];
    unfold PosixPath.isabs, PosixPath.sep;
    by rewrite prefix_cons, prefix_empty.
Qed.

Lemma isabs_abspath (cwd path : string) :
  PosixPath.isabs cwd = true ->
  PosixPath.isabs (PosixPath.abspath cwd path) = true.
Proof.
  intros Hcwd. unfold PosixPath.abspath.
  destruct (PosixPath.isabs path) eqn:Hp.
  - by apply isabs_normpath.
  - by apply isabs_normpath, isabs_join.
Qed.

(** X10. When the current working directory is an absolute path, as
    [os.getcwd()] gives it, the path returned by [get_github_config_path]
    is absolute, whatever [HOME] holds and whatever the file name. *)
Theorem get_github_config_path_absolute (gh : GitHub3) (st : State gh)
    (config_file_name : string) :
  PosixPath.isabs (cwd (world st)) = true ->
  exists path,
    get_github_config_path config_file_name st = (Ok path, st)
    /\ PosixPath.isabs path = true.
Proof.
  intros Hcwd. eexists. split; [reflexivity|].
  by apply isabs_join, isabs_abspath.
Qed.

Lemma get_github_config_path_absolute_witness :
  PosixPath.isabs (cwd (world (terminal_state []))) = true
  /\ exists path,
       get_github_config_path CONFIG_URL (terminal_state [])
       = (Ok path, terminal_state [])
       /\ PosixPath.isabs path = true.
Proof.
  split; [reflexivity|].
  apply (get_github_config_path_absolute rejecting_github3 (terminal_state [])
           CONFIG_URL).
  reflexivity.
Defined.

(** * Further properties of [save_urls] and [load_urls] *)

(** The two files are never the same one. *)
Lemma credentials_path_not_urls_path (w : World) :
  credentials_path w <> urls_path w.
Proof.
  unfold credentials_path, urls_path, PosixPath.join.
  change (String.prefix PosixPath.sep CONFIG) with false.
  change (String.prefix PosixPath.sep CONFIG_URL) with false.
  cbv iota.
  destruct (negb (PyStr.nonempty _) || PosixPath.endswith_sep _).
  - by intros ?%(inj (String.app _)).
  - by intros ?%(inj (String.app _))%(inj (String.app _)).
Qed.

(** [save_urls], by cases on [self.urls] and on the file at the path. *)
Lemma save_urls_run {gh : GitHub3} (st : State gh) :
  save_urls st
  = let w := world st in
    match urls (self st) with
    | None => (Raise (AttributeError "urls"), st)
    | Some l =>
        match fs w !! urls_path w with
        | Some f =>
            if readable f && writable f
            then (Ok tt,
                  {| self := self st;
                     world := with_fs w (<[urls_path w :=
                                written_file (Some f) (url_table l)]> (fs w)) |})
            else (Raise (PermissionError (urls_path w)), st)
        | None =>
            (Ok tt,
             {| self := self st;
                world := with_fs w (<[urls_path w :=
                           written_file None (url_table l)]> (fs w)) |})
        end
    end.
Proof.
  unfold save_urls, get_github_config_path, read_urls,
    parser_add_section, parser_set, open_write. run.
  rewrite url_parser_add_section. simpl.
  destruct (urls (self st)) as [l|]; [|reflexivity]. simpl.
  rewrite url_parser_set. simpl. rewrite url_parser_write.
  unfold urls_path.
  destruct (fs (world st) !! _) as [f|]; [destruct (readable f && writable f)|];
    by destruct st.
Qed.

(** X11. [save_urls] changes nothing but the file of the url list: the
    object, the environment, the terminal and the record of calls are as
    they were, and so is every other path of the file system; the
    credentials file is such a path. *)
Theorem save_urls_touches_only_url_file (gh : GitHub3) (st : State gh) :
  let st' := final save_urls st in
  self st' = self st
  /\ environ (world st') = environ (world st)
  /\ cwd (world st') = cwd (world st)
  /\ stdin (world st') = stdin (world st)
  /\ stdout (world st') = stdout (world st)
  /\ api_calls (world st') = api_calls (world st)
  /\ (forall path, path <> urls_path (world st) ->
                   fs (world st') !! path = fs (world st) !! path)
  /\ fs (world st') !! credentials_path (world st)
     = fs (world st) !! credentials_path (world st).
Proof.
  intros st'. subst st'. unfold final. rewrite save_urls_run. cbv zeta.
  assert (Hother : forall (fs' : gmap string File),
    (forall path, path <> urls_path (world st) ->
                  fs' !! path = fs (world st) !! path) ->
    fs' !! credentials_path (world st)
    = fs (world st) !! credentials_path (world st)).
  { intros fs' H. apply H, credentials_path_not_urls_path. }
  destruct (urls (self st)) as [l|]; [|by auto 10].
  destruct (fs (world st) !! urls_path (world st)) as [f|] eqn:Hf;
    [destruct (readable f && writable f)|]; simpl;
    repeat (split; [done|]);
    first [ by auto
          | split; [|apply Hother]; intros path Hpath;
            by rewrite lookup_insert_ne ].
Qed.

(** X12. [save_urls] raises [AttributeError] when [self.urls] is not set,
    and [PermissionError] when the url file is there and may not be both
    read and written; in both cases nothing has changed. It never raises
    [NameError] nor [DuplicateSectionError]: [add_section] cannot fail on
    the parser just made, so the handler, which names a
    [DuplicateSectionError] that the module does not import, is never
    entered. *)
Theorem save_urls_failures (gh : GitHub3) (st : State gh) :
  (urls (self st) = None ->
   save_urls st = (Raise (AttributeError "urls"), st))
  /\ (forall l f,
        urls (self st) = Some l ->
        fs (world st) !! urls_path (world st) = Some f ->
        readable f && writable f = false ->
        save_urls st = (Raise (PermissionError (urls_path (world st))), st))
  /\ (forall name, result save_urls st <> Raise (NameError name))
  /\ (forall section,
        result save_urls st <> Raise (DuplicateSectionError section)).
Proof.
  unfold result. rewrite save_urls_run. cbv zeta.
  split; [by intros ->|]. split; [by intros l f -> -> ->|].
  split; intros x;
    (destruct (urls (self st)) as [l|]; [|done]);
    (destruct (fs (world st) !! urls_path (world st)) as [f|]; [|done]);
    by destruct (readable f && writable f).
Qed.

Lemma save_urls_failures_witness :
  urls (self (terminal_state [])) = None
  /\ save_urls (terminal_state [])
     = (Raise (AttributeError "urls"), terminal_state [])
  /\ urls (self read_only_url_state) = Some ["https://github.com/a/b"]
  /\ save_urls read_only_url_state
     = (Raise (PermissionError "/home/octocat/.githubconfigurl"),
        read_only_url_state).
Proof.
  split; [reflexivity|]. split.
  - apply (proj1 (save_urls_failures rejecting_github3 (terminal_state []))).
    reflexivity.
  - split; [reflexivity|].
    apply (proj1 (proj2 (save_urls_failures rejecting_github3
                           read_only_url_state))
             ["https://github.com/a/b"]
             {| readable := true; writable := false;
                data := IniText (url_table ["https://github.com/c/d"]) |});
      reflexivity.
Defined.

(** A sample for X13. *)
Lemma save_then_load_urls_witness :
  Forall plain_entry ["a/b"; "c/d"]
  /\ Forall (fun x => repr_plain x = true) ["a/b"; "c/d"]
  /\ result (save_list ["https://github.com/a/b"; "https://github.com/c/d"])
       (terminal_state []) = Ok tt
  /\ result (load_urls false)
       (final (save_list ["https://github.com/a/b"; "https://github.com/c/d"])
          (terminal_state []))
     = Ok ["a/b"; "c/d"].
Proof.
  assert (Hplain : Forall plain_entry ["a/b"; "c/d"]) by repeat constructor.
  assert (Hrepr : Forall (fun x => repr_plain x = true) ["a/b"; "c/d"])
    by repeat constructor.
  split; [exact Hplain|]. split; [exact Hrepr|]. split; [reflexivity|].
  apply (save_then_load_urls (terminal_state []) "a/b" ["c/d"] false
           Hplain Hrepr).
  reflexivity.
Defined.

(** After a save that returned, the url file holds [str] of the list. *)
Lemma url_file_after_save {gh : GitHub3} (st : State gh) (l : list string) :
  result (save_list l) st = Ok tt ->
  url_file (world (final (save_list l) st)) (PyStr.str_of_list l).
Proof.
  unfold result, final. rewrite save_list_run. cbv zeta. unfold url_file.
  destruct (fs (world st) !! urls_path (world st)) as [f|] eqn:Hf.
  - destruct (readable f && writable f) eqn:Hrw; [|discriminate].
    intros _. apply andb_prop in Hrw as [Hr _]. simpl.
    eexists _, (url_table l). unfold urls_path in *. simpl.
    by rewrite lookup_insert_eq.
  - intros _. simpl. eexists _, (url_table l). unfold urls_path in *. simpl.
    by rewrite lookup_insert_eq.
Qed.

(** X14. An empty list does not survive a save and a load: [save_urls]
    writes its text, a pair of brackets, and [load_urls] then returns the
    list of one empty string, whatever [view_in_browser]. *)
Theorem empty_list_loads_as_one_empty_entry (gh : GitHub3) (st : State gh)
    (view_in_browser : bool) :
  result (save_list []) st = Ok tt ->
  result (load_urls view_in_browser) (final (save_list []) st) = Ok [""].
Proof.
  intros Hok. unfold result at 1.
  rewrite (load_urls_run _ _ _ (url_file_after_save st [] Hok)).
  by destruct view_in_browser.
Qed.

Lemma empty_list_loads_as_one_empty_entry_witness :
  result (save_list []) (terminal_state []) = Ok tt
  /\ result (load_urls true) (final (save_list []) (terminal_state []))
     = Ok [""].
Proof.
  split; [reflexivity|].
  apply (empty_list_loads_as_one_empty_entry rejecting_github3
           (terminal_state []) true).
  reflexivity.
Defined.

(** [load_urls], by cases on the file at the path. *)
Lemma load_urls_cases {gh : GitHub3} (view_in_browser : bool) (st : State gh) :
  load_urls view_in_browser st
  = (match fs (world st) !! urls_path (world st) with
     | None => Raise (FileNotFoundError (urls_path (world st)))
     | Some f =>
         if readable f
         then match data f with
              | IniText table =>
                  match ConfigParser.get table CONFIG_URL_SECTION
                          CONFIG_URL_LIST with
                  | Ok raw => Ok (clean_urls view_in_browser raw)
                  | Raise e => Raise e
                  end
              | OtherText _ => Raise ParsingError
              end
         else Raise (PermissionError (urls_path (world st)))
     end, st).
Proof.
  unfold load_urls, get_github_config_path, open_read, parser_get, readfp.
  unfold mbind, M_bind, mret, M_ret, bind, ret, raise, lift, get_world. simpl.
  unfold urls_path.
  destruct (fs (world st) !! _) as [f|]; [|reflexivity].
  destruct (readable f); [|reflexivity]. simpl.
  destruct (data f) as [table|text]; [|reflexivity]. simpl.
  rewrite read_table_new.
  by destruct (ConfigParser.get table CONFIG_URL_SECTION CONFIG_URL_LIST).
Qed.

(** X15. [load_urls] never returns the empty list: there is always a first
    entry, be it the empty string. *)
Theorem load_urls_never_empty (gh : GitHub3) (st : State gh)
    (view_in_browser : bool) (urls : list string) :
  result (load_urls view_in_browser) st = Ok urls -> urls <> [].
Proof.
  unfold result. rewrite load_urls_cases. cbn [fst].
  destruct (fs (world st) !! urls_path (world st)) as [f|]; [|discriminate].
  destruct (readable f); [|discriminate].
  destruct (data f) as [table|text]; [|discriminate].
  destruct (ConfigParser.get table CONFIG_URL_SECTION CONFIG_URL_LIST)
    as [raw|e]; [|discriminate].
  intros [= <-]. unfold clean_urls, PyStr.split.
  by destruct (PyStr.split_from _ _ _).
Qed.

Lemma load_urls_never_empty_witness :
  result (load_urls false) (url_state "[]") = Ok [""] /\ [""] <> [].
Proof.
  split; [reflexivity|].
  apply (load_urls_never_empty rejecting_github3 (url_state "[]") false [""]).
  reflexivity.
Defined.

(** X16. [load_urls] only reads: whether it returns or raises, the object
    and the world are as they were. *)
Theorem load_urls_leaves_state (gh : GitHub3) (st : State gh)
    (view_in_browser : bool) :
  final (load_urls view_in_browser) st = st.
Proof. unfold final. by rewrite load_urls_cases. Qed.

(** X17. Without a url file [load_urls] raises [FileNotFoundError], and
    with one that may not be read, [PermissionError]: it supplies no
    empty list of its own. That the file may not be written is no
    obstacle. *)
Theorem load_urls_without_file (gh : GitHub3) (st : State gh)
    (view_in_browser : bool) :
  (fs (world st) !! urls_path (world st) = None ->
   result (load_urls view_in_browser) st
   = Raise (FileNotFoundError (urls_path (world st))))
  /\ (forall f, fs (world st) !! urls_path (world st) = Some f ->
                readable f = false ->
                result (load_urls view_in_browser) st
                = Raise (PermissionError (urls_path (world st))))
  /\ (forall f table raw,
        fs (world st) !! urls_path (world st) = Some f ->
        readable f = true -> writable f = false ->
        data f = IniText table ->
        ConfigParser.get table CONFIG_URL_SECTION CONFIG_URL_LIST = Ok raw ->
        result (load_urls view_in_browser) st
        = Ok (clean_urls view_in_browser raw)).
Proof.
  unfold result. rewrite load_urls_cases. cbn [fst].
  split; [|split].
  - by intros ->.
  - by intros f -> ->.
  - by intros f table raw -> -> _ -> ->.
Qed.

Lemma load_urls_without_file_witness :
  fs (world (terminal_state [])) !! urls_path (world (terminal_state []))
    = None
  /\ result (load_urls false) (terminal_state [])
     = Raise (FileNotFoundError "/home/octocat/.githubconfigurl")
  /\ readable
       {| readable := false; writable := true;
          data := IniText (url_table []) |} = false
  /\ result (load_urls false) unreadable_url_state
     = Raise (PermissionError "/home/octocat/.githubconfigurl").
Proof.
  split; [reflexivity|]. split.
  - apply (proj1 (load_urls_without_file rejecting_github3 (terminal_state [])
                    false)).
    reflexivity.
  - split; [reflexivity|].
    apply (proj1 (proj2 (load_urls_without_file rejecting_github3
                           unreadable_url_state false))
             {| readable := false; writable := true;
                data := IniText (url_table []) |});
      reflexivity.
Defined.

(** X18. A url file without a [url] section makes [load_urls] raise
    [NoSectionError], and one whose section and defaults have no
    [url_list], [NoOptionError]. *)
Theorem load_urls_without_list (gh : GitHub3) (st : State gh)
    (view_in_browser : bool) (f : File) (table : RawConfigParser string) :
  fs (world st) !! urls_path (world st) = Some f ->
  readable f = true ->
  data f = IniText table ->
  (sections table !! CONFIG_URL_SECTION = None ->
   result (load_urls view_in_browser) st
   = Raise (NoSectionError CONFIG_URL_SECTION))
  /\ (forall options,
        sections table !! CONFIG_URL_SECTION = Some options ->
        options !! CONFIG_URL_LIST = None ->
        defaults table !! CONFIG_URL_LIST = None ->
        result (load_urls view_in_browser) st
        = Raise (NoOptionError CONFIG_URL_LIST CONFIG_URL_SECTION)).
Proof.
  intros Hf Hr Hd. unfold result. rewrite load_urls_cases, Hf, Hr, Hd.
  cbn [fst]. split.
  - intros Hsec. unfold ConfigParser.get. by rewrite Hsec.
  - intros options Hsec Hopt Hdef.
    by rewrite (get_absent table CONFIG_URL_SECTION CONFIG_URL_LIST options
                  Hsec eq_refl Hopt Hdef).
Qed.

Lemma load_urls_without_list_witness :
  result (load_urls false) (url_table_state no_url_section_table)
    = Raise (NoSectionError "url")
  /\ result (load_urls false) (url_table_state empty_url_section_table)
     = Raise (NoOptionError "url_list" "url").
Proof.
  split.
  - apply (proj1 (load_urls_without_list rejecting_github3
                    (url_table_state no_url_section_table) false
                    (sample_file no_url_section_table) no_url_section_table
                    eq_refl eq_refl eq_refl)).
    reflexivity.
  - apply (proj2 (load_urls_without_list rejecting_github3
                    (url_table_state empty_url_section_table) false
                    (sample_file empty_url_section_table)
                    empty_url_section_table eq_refl eq_refl eq_refl) ∅);
      reflexivity.
Defined.

(** * [Config()] and how the methods combine *)

(** X19. A [Config] whose construction returns holds the stored login, the
    session of the one call to [login], the stored feed, no token and no
    password, and an empty list of urls, whatever the object held
    before. *)
Theorem init_success_state (gh : GitHub3) (st : State gh) :
  result __init__ st = Ok tt ->
  exists table username args feed,
    credentials_file (world st) table
    /\ ConfigParser.get table CONFIG_SECTION CONFIG_USER_LOGIN = Ok username
    /\ ConfigParser.get table CONFIG_SECTION CONFIG_USER_FEED = Ok feed
    /\ one_credential args
    /\ self (final __init__ st)
       = {| api := Some (login gh args); user_login := Some username;
            user_pass := None; user_token := None;
            user_feed := Some feed; urls := Some [] |}.
Proof.
  unfold result, final, __init__, assign_urls.
  unfold mbind, M_bind, mret, M_ret, bind, ret, get_self, put_self. simpl.
  set (st0 := {| self := _; world := world st |}).
  pose proof (authenticate_ok st0) as Hok. unfold result, final in Hok.
  destruct (authenticate st0) as [[[]|err] st1] eqn:Hrun; [|discriminate].
  intros _. destruct (Hok eq_refl) as (table & Hfile & Hsaved).
  destruct (saved_credentials_ok table st0 _ Hsaved)
    as (u & args & fd & Hu & Hfd & Hmode & Hst1).
  exists table, u, args, fd. simpl in Hst1. subst st1. simpl.
  repeat split; try done.
  destruct Hmode as [(t & _ & ->)|(p & _ & _ & ->)]; [left|right]; simpl; eauto.
Qed.

Lemma init_success_state_witness :
  result __init__ both_files_state = Ok tt
  /\ exists table username args feed,
    credentials_file (world both_files_state) table
    /\ ConfigParser.get table CONFIG_SECTION CONFIG_USER_LOGIN = Ok username
    /\ ConfigParser.get table CONFIG_SECTION CONFIG_USER_FEED = Ok feed
    /\ one_credential args
    /\ self (final __init__ both_files_state)
       = {| api := Some (login rejecting_github3 args);
            user_login := Some username;
            user_pass := None; user_token := None;
            user_feed := Some feed; urls := Some [] |}.
Proof.
  split; [reflexivity|].
  apply (init_success_state rejecting_github3 both_files_state). reflexivity.
Defined.

(** The outcome of the saved-credentials branch and the object it leaves
    depend on the table and on the object only. *)
Lemma saved_credentials_run_self {gh : GitHub3}
    (table : RawConfigParser string) (st1 st2 : State gh) :
  self st1 = self st2 ->
  (saved_credentials_run table st1).1 = (saved_credentials_run table st2).1
  /\ self (saved_credentials_run table st1).2
     = self (saved_credentials_run table st2).2.
Proof.
  intros Hself. unfold saved_credentials_run, read_feed.
  destruct (ConfigParser.get table CONFIG_SECTION CONFIG_USER_LOGIN) as [u|e];
    [|done].
  destruct (ConfigParser.get table CONFIG_SECTION CONFIG_USER_TOKEN) as [t|e].
  { destruct (ConfigParser.get table CONFIG_SECTION CONFIG_USER_FEED);
      simpl; by rewrite Hself. }
  destruct e; simpl; try by rewrite Hself.
  destruct (ConfigParser.get table CONFIG_SECTION CONFIG_USER_PASS) as [p|e];
    simpl; [|by rewrite Hself].
  destruct (ConfigParser.get table CONFIG_SECTION CONFIG_USER_FEED);
    simpl; by rewrite Hself.
Qed.

(** [authenticate] looks at the environment, the current directory, the
    file of the credentials and the object, and at nothing else. *)
Lemma authenticate_reads {gh : GitHub3} (st1 st2 : State gh) :
  self st1 = self st2 ->
  environ (world st1) = environ (world st2) ->
  cwd (world st1) = cwd (world st2) ->
  fs (world st1) !! credentials_path (world st1)
  = fs (world st2) !! credentials_path (world st2) ->
  result authenticate st1 = result authenticate st2
  /\ self (final authenticate st1) = self (final authenticate st2).
Proof.
  intros Hself Henv Hcwd Hfs. unfold result, final.
  destruct (world_cases (world st1))
    as [Hn|[[table Ht]|(f & text & Hf & Hr & Hw & Hd)]].
  - assert (Hn2 : no_credentials_file (world st2))
      by (unfold no_credentials_file in *; by rewrite <- Hfs).
    rewrite (authenticate_interactive st1 Hn), (authenticate_interactive st2 Hn2).
    simpl. by rewrite Hself.
  - assert (Ht2 : credentials_file (world st2) table)
      by (unfold credentials_file in *; by rewrite <- Hfs).
    rewrite (authenticate_saved st1 table Ht), (authenticate_saved st2 table Ht2).
    by apply saved_credentials_run_self.
  - rewrite Hfs in Hf.
    rewrite (authenticate_other_text st1 f text), (authenticate_other_text st2 f text);
      try done. by rewrite Hfs.
Qed.

(** X20. The url list and the credentials do not interfere: after
    [save_urls], whether it returned or raised, [authenticate] ends as it
    would have without it and leaves the same object; and after
    [authenticate], [load_urls] gives what it would have given before. *)
Theorem url_list_and_credentials_independent (gh : GitHub3) (st : State gh)
    (view_in_browser : bool) :
  result authenticate (final save_urls st) = result authenticate st
  /\ self (final authenticate (final save_urls st))
     = self (final authenticate st)
  /\ result (load_urls view_in_browser) (final authenticate st)
     = result (load_urls view_in_browser) st.
Proof.
  assert (Hsave : self (final save_urls st) = self st
                  /\ environ (world (final save_urls st)) = environ (world st)
                  /\ cwd (world (final save_urls st)) = cwd (world st)
                  /\ fs (world (final save_urls st)) !! credentials_path (world st)
                     = fs (world st) !! credentials_path (world st)).
  { unfold final. rewrite save_urls_run. cbv zeta.
    destruct (urls (self st)) as [l|]; [|done].
    destruct (fs (world st) !! urls_path (world st)) as [f|];
      [destruct (readable f && writable f)|]; simpl;
      repeat (split; [done|]); try done;
      by rewrite lookup_insert_ne
        by (intros H; by apply (credentials_path_not_urls_path (world st))). }
  destruct Hsave as (Hself & Henv & Hcwd & Hfs).
  assert (Hpath : credentials_path (world (final save_urls st))
                  = credentials_path (world st))
    by (unfold credentials_path; by rewrite Henv, Hcwd).
  split; [|split].
  - apply authenticate_reads; try done. by rewrite Hpath.
  - apply authenticate_reads; try done. by rewrite Hpath.
  - unfold result. rewrite !load_urls_cases. cbn [fst].
    assert (Hworld : exists new,
              world (final authenticate st)
              = with_api_calls (world st) (api_calls (world st) ++ new)).
    { unfold final.
      destruct (world_cases (world st))
        as [Hn|[[table Ht]|(f & text & Hf & Hr & Hw & Hd)]].
      - rewrite (authenticate_interactive st Hn). exists []. simpl.
        rewrite app_nil_r. by destruct (world st).
      - rewrite (authenticate_saved st table Ht).
        destruct (saved_credentials_run_world table st) as (new & Hw & _).
        by exists new.
      - rewrite (authenticate_other_text st f text Hf Hr Hw Hd). exists [].
        simpl. rewrite app_nil_r. by destruct (world st). }
    destruct Hworld as (new & ->). reflexivity.
Qed.
